(** * The worker manager of the DCFServer: a shallow embedding

    Source: [src/dc_federated/backend/_worker_manager.py], class
    [WorkerManager].  The class keeps three containers,

    - [public_keys]        : dict  str -> VerifyKey
    - [allowed_workers]    : list  of str
    - [registered_workers] : dict  str -> bool

    and the flag [do_public_key_auth].  Every method is embedded as a
    computation over that object which may return a value, raise an
    exception and write to the logger. *)

From Stdlib Require Import String Ascii List Bool Arith ZArith Lia.
Import ListNotations.

Local Open Scope string_scope.
Local Open Scope list_scope.

Notation "a +++ b" := (String.append a b) (at level 60, right associativity).

(** ** Python containers *)

(** A Python [dict] with [str] keys.  Python dicts iterate in insertion
    order and [get_worker_list] / [get_keys] expose that order, so the
    dict is kept as an association list: assigning to an existing key
    updates the value in place, assigning to a new key appends. *)
Module PyDict.
Section Dict.
Context {V : Type}.

Definition dict : Type := list (string * V).

Definition empty : dict := [].

(** [d.get(k)]; [None] is the case in which [d[k]] raises KeyError. *)
Fixpoint get (k : string) (d : dict) : option V :=
  match d with
  | [] => None
  | (k', v) :: d' => if String.eqb k k' then Some v else get k d'
  end.

(** [k in d] *)
Definition mem (k : string) (d : dict) : bool :=
  match get k d with Some _ => true | None => false end.

(** [d[k] = v] *)
Fixpoint set (k : string) (v : V) (d : dict) : dict :=
  match d with
  | [] => [(k, v)]
  | (k', v') :: d' =>
      if String.eqb k k' then (k', v) :: d' else (k', v') :: set k v d'
  end.

(** [del d[k]], for a key that is present. *)
Fixpoint del (k : string) (d : dict) : dict :=
  match d with
  | [] => []
  | (k', v') :: d' =>
      if String.eqb k k' then del k d' else (k', v') :: del k d'
  end.

Definition keys (d : dict) : list string := map fst d.
Definition items (d : dict) : list (string * V) := d.
End Dict.
Arguments dict V : clear implicits.
End PyDict.

(** A Python [list] of [str]. *)
Module PyList.
(** [x in l] *)
Fixpoint contains (x : string) (l : list string) : bool :=
  match l with
  | [] => false
  | y :: l' => if String.eqb x y then true else contains x l'
  end.

(** [l.remove(x)]: drops the first occurrence; [None] is the case in
    which Python raises ValueError. *)
Fixpoint remove (x : string) (l : list string) : option (list string) :=
  match l with
  | [] => None
  | y :: l' =>
      if String.eqb x y then Some l'
      else match remove x l' with
           | Some r => Some (y :: r)
           | None => None
           end
  end.

(** [l.append(x)] *)
Definition append (x : string) (l : list string) : list string := l ++ [x].

(** [l.count(x)] *)
Fixpoint count (x : string) (l : list string) : nat :=
  match l with
  | [] => 0
  | y :: l' => if String.eqb x y then S (count x l') else count x l'
  end.
End PyList.

(** ** Exceptions, logging and the external world *)

(** The exceptions that can occur while the manager runs. *)
Inductive exn : Type :=
| ValueError (msg : string)
| KeyError (key : string)
| BadSignatureError
    (* nacl.exceptions.BadSignatureError *)
| LibraryError (cls msg : string).
    (* any other subclass of Exception raised inside a library call,
       e.g. binascii.Error from HexEncoder.decode or OSError from open *)

Definition str_exn (e : exn) : string :=
  match e with
  | ValueError msg => msg
  | KeyError key => key
  | BadSignatureError => "Signature was forged or corrupt"
  | LibraryError _ msg => msg
  end.

Definition is_BadSignatureError (e : exn) : bool :=
  match e with BadSignatureError => true | _ => false end.

Inductive outcome (A : Type) : Type :=
| Return (a : A)
| Raise (e : exn).
Arguments Return {A} a.
Arguments Raise {A} e.

Inductive level : Type := INFO | WARNING | ERROR.

Definition log_record : Type := (level * string)%type.

Definition is_error (r : log_record) : bool :=
  match fst r with ERROR => true | _ => false end.

(** What the module imports and does not define itself: the constants of
    [dc_federated.backend._constants], [message_seriously_wrong] of
    [backend_utils], PyNaCl's [VerifyKey] with the [HexEncoder], the
    SHA-224 digest of [hashlib] and the file system.  They are parameters
    of the development. *)
Class Externals : Type := {
  INVALID_WORKER : string;
  NO_AUTHENTICATION : string;
  AUTHENTICATED : string;
  WORKER_ID_KEY : string;
  REGISTRATION_STATUS_KEY : string;
  message_seriously_wrong : string -> string;
  (** the type of [nacl.signing.VerifyKey] objects *)
  VerifyKey : Type;
  (** [VerifyKey(s.encode(), encoder=HexEncoder)] *)
  VerifyKey_new : string -> outcome VerifyKey;
  (** [vk.verify(s.encode(), encoder=HexEncoder)] *)
  VerifyKey_verify : VerifyKey -> string -> outcome unit;
  (** [hashlib.sha224(s.encode('utf-8')).hexdigest()] *)
  sha224_hexdigest : string -> string;
  (** [with open(path, 'r') as f: f.read().splitlines()] *)
  read_splitlines : string -> outcome (list string)
}.

(** The values put in the dicts returned by [get_worker_list]. *)
Inductive pyval : Type :=
| PyStr (s : string)
| PyBool (b : bool).

Definition str_bool (b : bool) : string := if b then "True" else "False".

Section Manager.
Context `{Ext : Externals}.

(** ** The object *)

Record WorkerManager : Type := mkWorkerManager {
  public_keys : PyDict.dict VerifyKey;
  allowed_workers : list string;
  registered_workers : PyDict.dict bool;
  do_public_key_auth : bool
}.

Definition set_public_keys (d : PyDict.dict VerifyKey) (s : WorkerManager) :=
  mkWorkerManager d (allowed_workers s) (registered_workers s) (do_public_key_auth s).
Definition set_allowed_workers (l : list string) (s : WorkerManager) :=
  mkWorkerManager (public_keys s) l (registered_workers s) (do_public_key_auth s).
Definition set_registered_workers (d : PyDict.dict bool) (s : WorkerManager) :=
  mkWorkerManager (public_keys s) (allowed_workers s) d (do_public_key_auth s).

(** ** Method bodies: state, exceptions and the logger

    A method body maps the object before the call to its outcome, the
    object after the call and the records it logged. *)
Definition M (A : Type) : Type :=
  WorkerManager -> outcome A * WorkerManager * list log_record.

Definition ret {A} (a : A) : M A := fun s => (Return a, s, []).

Definition raise {A} (e : exn) : M A := fun s => (Raise e, s, []).

Definition bind {A B} (m : M A) (k : A -> M B) : M B :=
  fun s =>
    match m s with
    | (Return a, s1, l1) =>
        match k a s1 with
        | (r, s2, l2) => (r, s2, l1 ++ l2)
        end
    | (Raise e, s1, l1) => (Raise e, s1, l1)
    end.

Notation "x <- m ;; k" := (bind m (fun x => k))
  (at level 61, m at next level, right associativity).
Notation "m ;;; k" := (bind m (fun _ => k))
  (at level 61, right associativity).

Definition self : M WorkerManager := fun s => (Return s, s, []).

Definition update (f : WorkerManager -> WorkerManager) : M unit :=
  fun s => (Return tt, f s, []).

Definition logger (lvl : level) (msg : string) : M unit :=
  fun s => (Return tt, s, [(lvl, msg)]).

Definition lift {A} (o : outcome A) : M A := fun s => (o, s, []).

(** [d[k]] as an expression. *)
Definition subscript {V} (d : PyDict.dict V) (k : string) : M V :=
  match PyDict.get k d with
  | Some v => ret v
  | None => raise (KeyError k)
  end.

(** [try: body / except <handled> as e: handler e / else: orelse].  The
    body yields [Some r] when it executes [return r] and [None] when it
    runs to its end, in which case the [else] suite runs.  An exception
    for which [handler] gives [None] is not caught. *)
Definition try_except_else {A} (body : M (option A))
    (handler : exn -> option (M A)) (orelse : M A) : M A :=
  fun s =>
    match body s with
    | (Return (Some r), s1, l1) => (Return r, s1, l1)
    | (Return None, s1, l1) =>
        match orelse s1 with
        | (r, s2, l2) => (r, s2, l1 ++ l2)
        end
    | (Raise e, s1, l1) =>
        match handler e with
        | Some h =>
            match h s1 with
            | (r, s2, l2) => (r, s2, l1 ++ l2)
            end
        | None => (Raise e, s1, l1)
        end
    end.

(** [try: body / except Exception as e: handler e], for a body all of
    whose paths return. *)
Definition try_except {A} (body : M A) (handler : exn -> M A) : M A :=
  fun s =>
    match body s with
    | (Return r, s1, l1) => (Return r, s1, l1)
    | (Raise e, s1, l1) =>
        match handler e s1 with
        | (r, s2, l2) => (r, s2, l1 ++ l2)
        end
    end.

Definition result {A} (x : outcome A * WorkerManager * list log_record) : outcome A :=
  fst (fst x).
Definition state_after {A} (x : outcome A * WorkerManager * list log_record) : WorkerManager :=
  snd (fst x).
Definition logged {A} (x : outcome A * WorkerManager * list log_record) : list log_record :=
  snd x.

(** The outcome and the object after the call, without the log. *)
Definition run {A} (m : M A) (s : WorkerManager) : outcome A * WorkerManager :=
  fst (m s).

(** Whether the call wrote a record of level ERROR. *)
Definition logs_error {A} (x : outcome A * WorkerManager * list log_record) : bool :=
  existsb is_error (logged x).

(** ** The methods of [WorkerManager] *)

(** [generate_id_for_worker]; [now] is [str(time.time())], the reading of
    the clock at the call, which only the unsafe mode consults. *)
Definition generate_id_for_worker (now : string) (public_key_str : string) : M string :=
  s <- self ;;
  if do_public_key_auth s then ret public_key_str
  else ret (sha224_hexdigest now +++ "_unauthenticated").

Definition add_public_key (public_key_str : string) : M bool :=
  s <- self ;;
  if negb (do_public_key_auth s) then ret true
  else
    try_except
      (s <- self ;;
       if negb (PyDict.mem public_key_str (public_keys s)) then
         vk <- lift (VerifyKey_new public_key_str) ;;
         update (fun s => set_public_keys (PyDict.set public_key_str vk (public_keys s)) s) ;;;
         ret true
       else
         logger WARNING
           ("Attempt to add previously added public key " +++ public_key_str +++ ".") ;;;
         ret true)
      (fun e => logger WARNING (str_exn e) ;;; ret false).

Definition delete_public_key (public_key_str : string) : M bool :=
  s <- self ;;
  if negb (do_public_key_auth s) then ret true
  else
    try_except
      (s <- self ;;
       if PyDict.mem public_key_str (public_keys s) then
         update (fun s => set_public_keys (PyDict.del public_key_str (public_keys s)) s) ;;;
         ret true
       else
         logger WARNING
           ("Attempt to remove unknown public key " +++ public_key_str +++ ".") ;;;
         ret true)
      (fun e => logger WARNING (str_exn e) ;;; ret false).

Definition get_keys : M (list string) :=
  s <- self ;; ret (PyDict.keys (public_keys s)).

Definition _add_worker (now : string) (public_key_str : string) : M (string * bool) :=
  worker_id <- generate_id_for_worker now public_key_str ;;
  s <- self ;;
  if do_public_key_auth s && negb (PyDict.mem public_key_str (public_keys s)) then
    let err := message_seriously_wrong "trying to add worker without adding worker first" in
    logger ERROR err ;;;
    ret (err, false)
  else if negb (PyList.contains worker_id (allowed_workers s)) then
    update (fun s => set_allowed_workers (PyList.append worker_id (allowed_workers s)) s) ;;;
    update (fun s => set_registered_workers
                       (PyDict.set worker_id false (registered_workers s)) s) ;;;
    logger INFO ("Successfully added worker with public key " +++ public_key_str) ;;;
    ret (worker_id, true)
  else
    logger INFO ("Worker with public key " +++ public_key_str +++
                 " was added previously - no additional actions taken.") ;;;
    ret (worker_id, false).

Definition add_worker (now : string) (public_key_str : string) : M (string * bool) :=
  s <- self ;;
  if do_public_key_auth s then
    ok <- add_public_key public_key_str ;;
    if negb ok then
      logger WARNING ("Invalid public key " +++ public_key_str +++ " - worker not added") ;;;
      ret (INVALID_WORKER, false)
    else _add_worker now public_key_str
  else _add_worker now public_key_str.

Definition set_registration_status (worker_id : string) (should_register : bool)
  : M (string * bool) :=
  s <- self ;;
  if PyList.contains worker_id (allowed_workers s) then
    old_status <- subscript (registered_workers s) worker_id ;;
    update (fun s => set_registered_workers
                       (PyDict.set worker_id should_register (registered_workers s)) s) ;;;
    logger INFO ("Set registration status of worker " +++ worker_id +++ "  from " +++
                 str_bool old_status +++ " to " +++ str_bool should_register +++ ".") ;;;
    ret (worker_id, true)
  else
    logger WARNING ("Please add worker with public key " +++ worker_id +++
                    " before trying to change registration status.") ;;;
    ret (INVALID_WORKER, false).

Definition remove_worker (worker_id : string) : M (string * bool) :=
  s <- self ;;
  if PyList.contains worker_id (allowed_workers s) then
    match PyList.remove worker_id (allowed_workers s) with
    | Some l => update (set_allowed_workers l)
    | None => raise (ValueError "list.remove(x): x not in list")
    end ;;;
    delete_public_key worker_id ;;;
    logger INFO ("Worker " +++ worker_id +++ " was removed - this worker will " +++
                 "no longer be allowed to register or participate in federated learning. ") ;;;
    ret (worker_id, true)
  else
    logger WARNING ("Attempt to remove non-existent worker " +++ worker_id +++ ".") ;;;
    ret (INVALID_WORKER, false).

Definition authenticate_worker (public_key_str : string) (signed_message : string)
  : M (bool * string) :=
  s <- self ;;
  if negb (do_public_key_auth s) then
    logger WARNING "Accepting worker as valid without authentication." ;;;
    logger WARNING
      "Server was likely started without a list of valid public keys from workers." ;;;
    ret (true, NO_AUTHENTICATION)
  else
    try_except_else
      (s <- self ;;
       if negb (PyDict.mem public_key_str (public_keys s)) then
         ret (Some (false, AUTHENTICATED))
       else
         vk <- subscript (public_keys s) public_key_str ;;
         lift (VerifyKey_verify vk signed_message) ;;;
         ret None)
      (fun e =>
         if is_BadSignatureError e then
           Some (logger WARNING ("Failed to authenticate worker with public key: " +++
                                 public_key_str +++ ".") ;;;
                 ret (false, AUTHENTICATED))
         else None)
      (logger INFO ("Successfully authenticated worker with public key: " +++
                    public_key_str +++ ".") ;;;
       ret (true, AUTHENTICATED)).

Definition authenticate_and_add_worker (now : string)
    (public_key_str : string) (signed_phrase : string) : M (string * bool) :=
  r <- authenticate_worker public_key_str signed_phrase ;;
  let auth_success := fst r in
  if auth_success then
    r' <- _add_worker now public_key_str ;;
    let worker_id := fst r' in
    set_registration_status worker_id true
  else ret (INVALID_WORKER, false).

Definition get_worker_list : M (list (PyDict.dict pyval)) :=
  s <- self ;;
  ret (map (fun item : string * bool =>
              let (worker_id, value) := item in
              PyDict.set REGISTRATION_STATUS_KEY (PyBool value)
                (PyDict.set WORKER_ID_KEY (PyStr worker_id) PyDict.empty))
           (PyDict.items (registered_workers s))).

Definition is_worker_allowed (worker_id : string) : M bool :=
  s <- self ;; ret (PyList.contains worker_id (allowed_workers s)).

Definition is_worker_registered (worker_id : string) : M bool :=
  s <- self ;;
  if PyDict.mem worker_id (registered_workers s) then
    subscript (registered_workers s) worker_id
  else ret false.

(** The object under construction: the three containers are empty. *)
Definition new_object (auth : bool) : WorkerManager :=
  mkWorkerManager PyDict.empty [] PyDict.empty auth.

(** The loop [for key in keys: ...] of [__init__]. *)
Fixpoint load_keys (now : string) (keys : list string) : M unit :=
  match keys with
  | [] => ret tt
  | key :: rest =>
      ok <- add_public_key key ;;
      (if ok then add_worker now key ;;; ret tt
       else logger WARNING ("Invalid public key " +++ key +++ " - worker not added.")) ;;;
      load_keys now rest
  end.

Definition config_error_str : string :=
  "Server started in unsafe mode but list of public keys provided. " +++
  "Either explicitly start server in safe mode or do not " +++
  "supply a public key list.".

(** [__init__].  [now] stands for the clock, which the constructor never
    consults because keys are only loaded with [do_public_key_auth] set.
    A constructor that raises leaves no object. *)
Definition __init__ (now : string) (server_mode_safe : bool) (key_list_file : option string)
  : outcome WorkerManager * list log_record :=
  if negb server_mode_safe then
    match key_list_file with
    | Some _ =>
        (Raise (ValueError config_error_str), [(ERROR, config_error_str)])
    | None =>
        (Return (new_object false),
         [(WARNING, "No key list file provided - no worker authentication will be used!!!.");
          (WARNING, "Server is running in ****UNSAFE MODE.****")])
    end
  else
    match key_list_file with
    | Some path =>
        match (keys <- lift (read_splitlines path) ;; load_keys now keys) (new_object true) with
        | (Return _, s, l) => (Return s, l)
        | (Raise e, _, l) => (Raise e, l)
        end
    | None => (Return (new_object true), [])
    end.

(** The object a construction yields, if it does. *)
Definition result_of_init (x : outcome WorkerManager * list log_record)
  : option WorkerManager :=
  match fst x with Return s => Some s | Raise _ => None end.

(** ** Calls and reachable objects *)

(** The public methods of the class, with their arguments.  A call that
    may consult the clock carries the reading [now]. *)
Inductive call : Type :=
| Authenticate_and_add_worker (now public_key_str signed_phrase : string)
| Add_worker (now public_key_str : string)
| Set_registration_status (worker_id : string) (should_register : bool)
| Remove_worker (worker_id : string)
| Add_public_key (public_key_str : string)
| Delete_public_key (public_key_str : string)
| Get_keys
| Generate_id_for_worker (now public_key_str : string)
| Authenticate_worker (public_key_str signed_message : string)
| Get_worker_list
| Is_worker_allowed (worker_id : string)
| Is_worker_registered (worker_id : string).

(** The object a call leaves behind, whether it returned or raised. *)
Definition exec (c : call) (s : WorkerManager) : WorkerManager :=
  match c with
  | Authenticate_and_add_worker now k sg =>
      state_after (authenticate_and_add_worker now k sg s)
  | Add_worker now k => state_after (add_worker now k s)
  | Set_registration_status i b => state_after (set_registration_status i b s)
  | Remove_worker i => state_after (remove_worker i s)
  | Add_public_key k => state_after (add_public_key k s)
  | Delete_public_key k => state_after (delete_public_key k s)
  | Get_keys => state_after (get_keys s)
  | Generate_id_for_worker now k => state_after (generate_id_for_worker now k s)
  | Authenticate_worker k sg => state_after (authenticate_worker k sg s)
  | Get_worker_list => state_after (get_worker_list s)
  | Is_worker_allowed i => state_after (is_worker_allowed i s)
  | Is_worker_registered i => state_after (is_worker_registered i s)
  end.

(** Objects obtained from a successful construction by calls that the
    policy [permitted] lets through. *)
Inductive reachable_by (permitted : WorkerManager -> call -> Prop)
  : WorkerManager -> Prop :=
| reachable_init now server_mode_safe key_list_file s l :
    __init__ now server_mode_safe key_list_file = (Return s, l) ->
    reachable_by permitted s
| reachable_call s c :
    reachable_by permitted s -> permitted s c ->
    reachable_by permitted (exec c s).

Definition any_call (s : WorkerManager) (c : call) : Prop := True.

(** Reachable by any sequence of public calls. *)
Definition reachable : WorkerManager -> Prop := reachable_by any_call.

(** The policy under which [delete_public_key] is not called from
    outside on the key of a worker that is still allowed. *)
Definition keeps_allowed_keys (s : WorkerManager) (c : call) : Prop :=
  match c with
  | Delete_public_key k => PyList.contains k (allowed_workers s) = false
  | _ => True
  end.

(** The policy under which [remove_worker] is not called. *)
Definition never_removes (s : WorkerManager) (c : call) : Prop :=
  match c with
  | Remove_worker _ => False
  | _ => True
  end.

(** ** The invariants of the data model *)

(** (I1) in safe mode every allowed identity has a public key record. *)
Definition I1 (s : WorkerManager) : bool :=
  negb (do_public_key_auth s) ||
  forallb (fun i => PyDict.mem i (public_keys s)) (allowed_workers s).

(** (I2) every key of [registered_workers] is an allowed identity. *)
Definition I2 (s : WorkerManager) : bool :=
  forallb (fun i => PyList.contains i (allowed_workers s))
          (PyDict.keys (registered_workers s)).

(** (I3) in unsafe mode no public key is stored. *)
Definition I3 (s : WorkerManager) : bool :=
  do_public_key_auth s ||
  match public_keys s with [] => true | _ => false end.

(** Every allowed identity has a registration status. *)
Definition allowed_have_status (s : WorkerManager) : bool :=
  forallb (fun i => PyDict.mem i (registered_workers s)) (allowed_workers s).

(** The list of allowed workers has no repetition and each of its
    members has a registration status. *)
Record consistent (s : WorkerManager) : Prop := {
  allowed_NoDup : NoDup (allowed_workers s);
  allowed_status :
    forall i, In i (allowed_workers s) -> PyDict.mem i (registered_workers s) = true
}.

(** The dict [{WORKER_ID_KEY: worker_id, REGISTRATION_STATUS_KEY: value}]
    that [get_worker_list] builds for an item of [registered_workers]. *)
Definition worker_row (worker_id : string) (value : bool) : PyDict.dict pyval :=
  PyDict.set REGISTRATION_STATUS_KEY (PyBool value)
    (PyDict.set WORKER_ID_KEY (PyStr worker_id) PyDict.empty).

(** The consistency fault of [_add_worker]: key authentication is on
    and the key text is not in the key store. *)
Definition consistency_fault (public_key_str : string) (s : WorkerManager) : bool :=
  do_public_key_auth s && negb (PyDict.mem public_key_str (public_keys s)).

(** Whether [VerifyKey(public_key_str.encode(), encoder=HexEncoder)]
    returns a key rather than raising. *)
Definition key_accepted (public_key_str : string) : bool :=
  match VerifyKey_new public_key_str with
  | Return _ => true
  | Raise _ => false
  end.

End Manager.

Arguments WorkerManager {Ext}.
Arguments M {Ext} A.

Declare Scope py_scope.
Notation "x <- m ;; k" := (bind m (fun x => k))
  (at level 61, m at next level, right associativity) : py_scope.
Notation "m ;;; k" := (bind m (fun _ => k))
  (at level 61, right associativity) : py_scope.

(** ** A reference instance of the external world

    Used to run the methods on concrete inputs.  Hex decoding and the
    32-byte key length follow PyNaCl's [HexEncoder] and [VerifyKey]; the
    signature primitive and the digest are stand-ins. *)
Module Reference.

Definition is_hexdigit (c : ascii) : bool :=
  let n := nat_of_ascii c in
  (Nat.leb 48 n && Nat.leb n 57) || (Nat.leb 97 n && Nat.leb n 102) ||
  (Nat.leb 65 n && Nat.leb n 70).

(** [binascii.unhexlify]: the text must consist of an even number of
    hexadecimal digits; the result lists the digit pairs. *)
Fixpoint unhexlify (s : string) : option (list string) :=
  match s with
  | EmptyString => Some []
  | String a (String b rest) =>
      if is_hexdigit a && is_hexdigit b then
        match unhexlify rest with
        | Some bs => Some (String a (String b EmptyString) :: bs)
        | None => None
        end
      else None
  | String _ EmptyString => None
  end.

Definition HexEncoder_decode (s : string) : outcome (list string) :=
  match unhexlify s with
  | Some bs => Return bs
  | None => Raise (LibraryError "binascii.Error" "Non-hexadecimal digit found")
  end.

Definition crypto_sign_PUBLICKEYBYTES : nat := 32.
Definition crypto_sign_BYTES : nat := 64.

Fixpoint list_eqb (a b : list string) : bool :=
  match a, b with
  | [], [] => true
  | x :: a', y :: b' => String.eqb x y && list_eqb a' b'
  | _, _ => false
  end.

(** Stand-in for Ed25519: a signed message is accepted when it has at
    least [crypto_sign_BYTES] bytes and starts with the key. *)
Definition crypto_sign_open (smessage key : list string) : outcome unit :=
  if Nat.leb crypto_sign_BYTES (length smessage) &&
     list_eqb (firstn crypto_sign_PUBLICKEYBYTES smessage) key
  then Return tt else Raise BadSignatureError.

Definition ref_VerifyKey_new (s : string) : outcome (list string) :=
  match HexEncoder_decode s with
  | Return key =>
      if Nat.eqb (length key) crypto_sign_PUBLICKEYBYTES then Return key
      else Raise (LibraryError "nacl.exceptions.ValueError"
                               "The key must be exactly 32 bytes long")
  | Raise e => Raise e
  end.

Definition ref_verify (key : list string) (s : string) : outcome unit :=
  match HexEncoder_decode s with
  | Return smessage => crypto_sign_open smessage key
  | Raise e => Raise e
  end.

Definition key_file : string := "workers.keys".

(** a key of 32 bytes, and a second one *)
Definition K1 : string :=
  "00112233445566778899aabbccddeeff00112233445566778899aabbccddeeff".
Definition K2 : string :=
  "ffeeddccbbaa99887766554433221100ffeeddccbbaa99887766554433221100".

(** a signed message that [K1] accepts, and one it rejects *)
Definition good_signature : string := K1 +++ K1 +++ "616263".
Definition bad_signature : string := K2 +++ K2 +++ "616263".

Definition ref_read_splitlines (path : string) : outcome (list string) :=
  if String.eqb path key_file then Return [K1; "not a key"]
  else Raise (LibraryError "FileNotFoundError" path).

#[export] Instance externals : Externals := {|
  INVALID_WORKER := "__invalid_worker__";
  NO_AUTHENTICATION := "No Authentication";
  AUTHENTICATED := "Authenticated";
  WORKER_ID_KEY := "worker_id";
  REGISTRATION_STATUS_KEY := "registration_status";
  message_seriously_wrong := fun msg => "Something is seriously wrong: " +++ msg;
  VerifyKey := list string;
  VerifyKey_new := ref_VerifyKey_new;
  VerifyKey_verify := ref_verify;
  sha224_hexdigest := fun s => s;
  read_splitlines := ref_read_splitlines
|}.

(** The object constructed in safe mode from [key_file]. *)
Definition loaded : WorkerManager :=
  mkWorkerManager [(K1, ["00"; "11"; "22"; "33"; "44"; "55"; "66"; "77";
                         "88"; "99"; "aa"; "bb"; "cc"; "dd"; "ee"; "ff";
                         "00"; "11"; "22"; "33"; "44"; "55"; "66"; "77";
                         "88"; "99"; "aa"; "bb"; "cc"; "dd"; "ee"; "ff"])]
    [K1] [(K1, false)] true.

(** [loaded] after the worker [K1] registered itself. *)
Definition registered : WorkerManager :=
  exec (Authenticate_and_add_worker "" K1 good_signature) loaded.

(** [loaded] after [delete_public_key(K1)]. *)
Definition key_deleted : WorkerManager :=
  exec (Delete_public_key K1) loaded.

(** The object constructed in unsafe mode. *)
Definition unsafe : WorkerManager := new_object false.

(** A clock reading. *)
Definition tick : string := "1600000000.0".

End Reference.

(** ** The MNIST worker runner

    Source: [src/dc_federated/mnist/mnist_fed_avg_worker.py], function
    [run].  Of it, the choice of the digits a worker trains on is
    embedded: the table [digit_classes] and the expression
    [digit_classes[args.digit_class]], where [args.digit_class] is any
    integer ([type=int]). *)
Module MnistFedAvgWorker.

Definition digit_classes : list (list nat) :=
  [[0; 1; 2; 3];
   [4; 5; 6];
   [7; 8; 9]].

(** [l[i]] for an integer [i]: a negative index counts from the end;
    [None] is the case in which Python raises IndexError. *)
Definition getitem {A} (l : list A) (i : Z) : option A :=
  let n := Z.of_nat (length l) in
  if (Z.leb 0 i && Z.ltb i n)%bool then nth_error l (Z.to_nat i)
  else if (Z.leb (- n) i && Z.ltb i 0)%bool then nth_error l (Z.to_nat (i + n))
  else None.

(** [digit_classes[args.digit_class]] *)
Definition digits (digit_class : Z) : option (list nat) :=
  getitem digit_classes digit_class.

End MnistFedAvgWorker.

(** ** Facts about the containers *)

Module PyDictFacts.
Import PyDict.
Section Facts.
Context {V : Type}.
Implicit Types (d : dict V) (k : string) (v : V).

Lemma mem_get k d : mem k d = true <-> exists v, get k d = Some v.
Proof.
  unfold mem. destruct (get k d) as [v|].
  - split; [eauto | reflexivity].
  - split; [discriminate | intros [v Hv]; discriminate].
Qed.

Lemma mem_keys k d : mem k d = true <-> In k (keys d).
Proof.
  unfold mem. induction d as [|[k' v'] d IH]; simpl.
  - split; [discriminate | tauto].
  - destruct (String.eqb_spec k k') as [->|Hne].
    + split; auto.
    + rewrite IH. split; [auto | intros [Heq|Hin]; [congruence | exact Hin]].
Qed.

Lemma get_In k v d : get k d = Some v -> In (k, v) d.
Proof.
  induction d as [|[k' v'] d IH]; simpl; [discriminate|].
  destruct (String.eqb_spec k k') as [->|Hne].
  - intros [= ->]. left. reflexivity.
  - intros H. right. exact (IH H).
Qed.

Lemma get_set_same k v d : get k (set k v d) = Some v.
Proof.
  induction d as [|[k' v'] d IH]; simpl.
  - now rewrite String.eqb_refl.
  - destruct (String.eqb_spec k k') as [->|Hne]; simpl.
    + now rewrite String.eqb_refl.
    + destruct (String.eqb_spec k k'); [congruence | exact IH].
Qed.

Lemma get_set_other k k' v d : k <> k' -> get k (set k' v d) = get k d.
Proof.
  intros Hne. induction d as [|[k2 v2] d IH]; simpl.
  - destruct (String.eqb_spec k k'); [congruence | reflexivity].
  - destruct (String.eqb_spec k' k2) as [->|Hne2]; simpl.
    + destruct (String.eqb_spec k k2); [congruence | reflexivity].
    + destruct (String.eqb_spec k k2); [reflexivity | exact IH].
Qed.

Lemma mem_set k k' v d : mem k (set k' v d) = (String.eqb k k' || mem k d)%bool.
Proof.
  unfold mem. destruct (String.eqb_spec k k') as [->|Hne].
  - now rewrite get_set_same.
  - now rewrite get_set_other.
Qed.

Lemma get_del_same k d : get k (del k d) = None.
Proof.
  induction d as [|[k' v'] d IH]; simpl; [reflexivity|].
  destruct (String.eqb_spec k k') as [->|Hne]; simpl; [exact IH|].
  destruct (String.eqb_spec k k'); [congruence | exact IH].
Qed.

Lemma get_del_other k k' d : k <> k' -> get k (del k' d) = get k d.
Proof.
  intros Hne. induction d as [|[k2 v2] d IH]; simpl; [reflexivity|].
  destruct (String.eqb_spec k' k2) as [->|Hne2]; simpl.
  - destruct (String.eqb_spec k k2); [congruence | exact IH].
  - destruct (String.eqb_spec k k2); [reflexivity | exact IH].
Qed.

Lemma mem_del k k' d : mem k (del k' d) = (negb (String.eqb k k') && mem k d)%bool.
Proof.
  unfold mem. destruct (String.eqb_spec k k') as [->|Hne]; simpl.
  - now rewrite get_del_same.
  - now rewrite get_del_other.
Qed.

Lemma set_absent k v d : get k d = None -> set k v d = d ++ [(k, v)].
Proof.
  induction d as [|[k' v'] d IH]; simpl; [reflexivity|].
  destruct (String.eqb k k'); [discriminate|].
  intros H. now rewrite (IH H).
Qed.

Lemma set_same k v d : get k d = Some v -> set k v d = d.
Proof.
  induction d as [|[k' v'] d IH]; simpl; [discriminate|].
  destruct (String.eqb k k').
  - intros [= ->]. reflexivity.
  - intros H. now rewrite (IH H).
Qed.

Lemma set_set k v v' d : set k v' (set k v d) = set k v' d.
Proof.
  induction d as [|[k2 v2] d IH]; simpl.
  - now rewrite String.eqb_refl.
  - destruct (String.eqb k k2) eqn:Hk; simpl; rewrite Hk; [reflexivity|].
    now rewrite IH.
Qed.

Lemma del_absent k d : get k d = None -> del k d = d.
Proof.
  induction d as [|[k' v'] d IH]; simpl; [reflexivity|].
  destruct (String.eqb k k'); [discriminate|].
  intros H. now rewrite (IH H).
Qed.

Lemma del_set_absent k v d : get k d = None -> del k (set k v d) = d.
Proof.
  induction d as [|[k' v'] d IH]; simpl.
  - now rewrite String.eqb_refl.
  - destruct (String.eqb k k') eqn:Hk; [discriminate|].
    intros H. simpl. rewrite Hk. now rewrite (IH H).
Qed.

Lemma del_del k d : del k (del k d) = del k d.
Proof. apply del_absent, get_del_same. Qed.

Lemma keys_del_NoDup k d : NoDup (keys d) -> NoDup (keys (del k d)).
Proof.
  unfold keys. induction d as [|[k' v'] d IH]; simpl; intros Hnd; [constructor|].
  inversion Hnd as [|? ? Hnotin Hnd']; subst.
  destruct (String.eqb_spec k k') as [->|Hne]; simpl; [auto|].
  constructor; [|auto].
  intros Hin. apply Hnotin.
  apply (proj1 (mem_keys k' _)). apply (proj2 (mem_keys k' _)) in Hin.
  rewrite mem_del in Hin. apply andb_true_iff in Hin. tauto.
Qed.

Lemma keys_set_present k v d : mem k d = true -> keys (set k v d) = keys d.
Proof.
  unfold mem, keys. induction d as [|[k' v'] d IH]; simpl; [discriminate|].
  destruct (String.eqb k k'); simpl; [reflexivity|].
  intros H. now rewrite (IH H).
Qed.

Lemma keys_set_NoDup k v d : NoDup (keys d) -> NoDup (keys (set k v d)).
Proof.
  unfold keys. induction d as [|[k' v'] d IH]; simpl; intros Hnd.
  - constructor; [tauto | constructor].
  - inversion Hnd as [|? ? Hnotin Hnd']; subst.
    destruct (String.eqb_spec k k') as [->|Hne]; simpl.
    + constructor; assumption.
    + constructor; [|auto].
      intros Hin. apply Hnotin.
      apply (proj1 (mem_keys k' _)). apply (proj2 (mem_keys k' _)) in Hin.
      rewrite mem_set in Hin.
      destruct (String.eqb_spec k' k); [congruence | exact Hin].
Qed.
End Facts.
End PyDictFacts.

Module PyListFacts.
Import PyList.

Lemma contains_In x l : contains x l = true <-> In x l.
Proof.
  induction l as [|y l IH]; simpl.
  - split; [discriminate | tauto].
  - destruct (String.eqb_spec x y) as [->|Hne].
    + split; auto.
    + rewrite IH. split; [auto | intros [Heq|Hin]; [congruence | exact Hin]].
Qed.

Lemma contains_false x l : contains x l = false <-> ~ In x l.
Proof.
  rewrite <- contains_In. destruct (contains x l); split; congruence.
Qed.

Lemma contains_append x y l :
  contains x (append y l) = (contains x l || String.eqb x y)%bool.
Proof.
  unfold append. induction l as [|z l IH]; simpl.
  - destruct (String.eqb x y); reflexivity.
  - destruct (String.eqb x z); [reflexivity | exact IH].
Qed.

Lemma remove_Some x l : contains x l = true -> exists r, remove x l = Some r.
Proof.
  induction l as [|y l IH]; simpl; [discriminate|].
  destruct (String.eqb x y); [eauto|].
  intros H. destruct (IH H) as [r ->]. eauto.
Qed.

Lemma remove_In x y l r : remove x l = Some r -> In y r -> In y l.
Proof.
  revert r. induction l as [|z l IH]; simpl; intros r; [discriminate|].
  destruct (String.eqb x z).
  - intros [= <-]. auto.
  - destruct (remove x l) as [r'|]; [|discriminate].
    intros [= <-] [->|Hin]; [auto | right; eapply IH; eauto].
Qed.

Lemma remove_In_other x y l r :
  remove x l = Some r -> y <> x -> In y l -> In y r.
Proof.
  revert r. induction l as [|z l IH]; simpl; intros r; [discriminate|].
  destruct (String.eqb_spec x z) as [->|Hne].
  - intros [= <-] Hyz [Heq|Hin]; [congruence | exact Hin].
  - destruct (remove x l) as [r'|]; [|discriminate].
    intros [= <-] Hyx [->|Hin]; [left; reflexivity | right; eapply IH; eauto].
Qed.

Lemma remove_NoDup x l r : remove x l = Some r -> NoDup l -> NoDup r /\ ~ In x r.
Proof.
  revert r. induction l as [|z l IH]; simpl; intros r; [discriminate|].
  destruct (String.eqb_spec x z) as [->|Hne].
  - intros [= <-] Hnd. inversion Hnd; subst. split; assumption.
  - destruct (remove x l) as [r'|] eqn:Hr; [|discriminate].
    intros [= <-] Hnd. inversion Hnd as [|? ? Hnotin Hnd']; subst.
    destruct (IH _ eq_refl Hnd') as [Hnd'' Hx]. split.
    + constructor; [|exact Hnd''].
      intros Hin. apply Hnotin. eapply remove_In; eauto.
    + intros [Heq|Hin]; [congruence | auto].
Qed.

Lemma count_notin x l : contains x l = false -> count x l = 0.
Proof.
  induction l as [|y l IH]; simpl; [reflexivity|].
  destruct (String.eqb x y); [discriminate | exact IH].
Qed.

Lemma count_append x y l :
  count x (append y l) = count x l + (if String.eqb x y then 1 else 0).
Proof.
  unfold append. induction l as [|z l IH]; simpl.
  - destruct (String.eqb x y); reflexivity.
  - destruct (String.eqb x z); rewrite IH; reflexivity.
Qed.

Lemma count_NoDup x l : NoDup l -> contains x l = true -> count x l = 1.
Proof.
  induction l as [|y l IH]; simpl; [discriminate|].
  intros Hnd. inversion Hnd as [|? ? Hnotin Hnd']; subst.
  destruct (String.eqb_spec x y) as [->|Hne].
  - intros _. apply contains_false in Hnotin. now rewrite (count_notin _ _ Hnotin).
  - apply IH. exact Hnd'.
Qed.

Lemma remove_contains_other x y l r :
  remove x l = Some r -> y <> x -> contains y r = contains y l.
Proof.
  intros Hr Hne. destruct (contains y l) eqn:Hl.
  - apply contains_In. eapply remove_In_other; eauto. now apply contains_In.
  - apply contains_false. intros Hin. apply contains_false in Hl. apply Hl.
    eapply remove_In; eauto.
Qed.

Lemma filter_notin x l :
  ~ In x l -> filter (fun y => negb (String.eqb x y)) l = l.
Proof.
  induction l as [|y l IH]; simpl; [reflexivity|].
  intros Hnotin. destruct (String.eqb_spec x y) as [->|Hne]; simpl.
  - exfalso. apply Hnotin. left. reflexivity.
  - rewrite IH; [reflexivity | tauto].
Qed.

Lemma remove_filter x l :
  NoDup l -> contains x l = true ->
  remove x l = Some (filter (fun y => negb (String.eqb x y)) l).
Proof.
  induction l as [|y l IH]; simpl; [discriminate|].
  intros Hnd. inversion Hnd as [|? ? Hnotin Hnd']; subst.
  destruct (String.eqb_spec x y) as [->|Hne]; simpl.
  - intros _. now rewrite filter_notin.
  - intros Hc. now rewrite (IH Hnd' Hc).
Qed.

Lemma append_NoDup x l : NoDup l -> ~ In x l -> NoDup (append x l).
Proof.
  unfold append. induction l as [|y l IH]; simpl; intros Hnd Hnotin.
  - constructor; [tauto | constructor].
  - inversion Hnd as [|? ? Hy Hnd']; subst. constructor.
    + rewrite in_app_iff. simpl. intros [Hin|[Heq|[]]]; [auto | subst; auto].
    + apply IH; auto.
Qed.
End PyListFacts.

(** ** How the methods run *)

Section ManagerFacts.
Context `{Ext : Externals}.
Implicit Types (s : WorkerManager) (c : call).
Local Open Scope py_scope.

Ltac unfold_monad :=
  unfold run, logs_error, result, state_after, logged,
    try_except_else, try_except, subscript, bind, ret, raise, self, update,
    logger, lift in *.

Ltac unfold_methods :=
  unfold authenticate_and_add_worker, add_worker, _add_worker,
    set_registration_status, remove_worker, add_public_key, delete_public_key,
    get_keys, generate_id_for_worker, authenticate_worker, get_worker_list,
    is_worker_allowed, is_worker_registered in *.

Ltac case_split :=
  repeat (simpl;
          match goal with
          | |- context [if ?b then _ else _] => destruct b eqn:?
          | |- context [match ?x with Some _ => _ | None => _ end] => destruct x eqn:?
          | |- context [match ?x with Return _ => _ | Raise _ => _ end] => destruct x eqn:?
          end).

Lemma run_bind {A B} (m : M A) (k : A -> M B) s :
  run (bind m k) s =
  match run m s with
  | (Return a, s1) => run (k a) s1
  | (Raise e, s1) => (Raise e, s1)
  end.
Proof.
  unfold run, bind. destruct (m s) as [[[a|e] s1] l1]; simpl; [|reflexivity].
  destruct (k a s1) as [[r s2] l2]. reflexivity.
Qed.

Lemma logs_error_bind {A B} (m : M A) (k : A -> M B) s :
  logs_error (bind m k s) =
  match run m s with
  | (Return a, s1) => logs_error (m s) || logs_error (k a s1)
  | (Raise e, s1) => logs_error (m s)
  end.
Proof.
  unfold logs_error, logged, run, bind.
  destruct (m s) as [[[a|e] s1] l1]; simpl; [|reflexivity].
  destruct (k a s1) as [[r s2] l2]. simpl. apply existsb_app.
Qed.

Lemma run_generate_id_for_worker now k s :
  run (generate_id_for_worker now k) s =
  (Return (if do_public_key_auth s then k
           else sha224_hexdigest now +++ "_unauthenticated"), s).
Proof. unfold_methods. unfold_monad. simpl. now destruct (do_public_key_auth s). Qed.

Lemma run_add_public_key k s :
  run (add_public_key k) s =
  if negb (do_public_key_auth s) then (Return true, s)
  else if negb (PyDict.mem k (public_keys s)) then
    match VerifyKey_new k with
    | Return vk =>
        (Return true, set_public_keys (PyDict.set k vk (public_keys s)) s)
    | Raise e => (Return false, s)
    end
  else (Return true, s).
Proof. unfold_methods. unfold_monad. case_split; solve [reflexivity | congruence]. Qed.

Lemma run_delete_public_key k s :
  run (delete_public_key k) s =
  (Return true,
   if do_public_key_auth s && PyDict.mem k (public_keys s)
   then set_public_keys (PyDict.del k (public_keys s)) s else s).
Proof.
  unfold_methods. unfold_monad. simpl.
  destruct (do_public_key_auth s); simpl; [|reflexivity].
  destruct (PyDict.mem k (public_keys s)); reflexivity.
Qed.

Lemma run__add_worker now k s :
  run (_add_worker now k) s =
  let worker_id :=
    if do_public_key_auth s then k else sha224_hexdigest now +++ "_unauthenticated" in
  if consistency_fault k s then
    (Return (message_seriously_wrong "trying to add worker without adding worker first",
             false), s)
  else if negb (PyList.contains worker_id (allowed_workers s)) then
    (Return (worker_id, true),
     mkWorkerManager (public_keys s) (PyList.append worker_id (allowed_workers s))
       (PyDict.set worker_id false (registered_workers s)) (do_public_key_auth s))
  else (Return (worker_id, false), s).
Proof.
  unfold consistency_fault. unfold_methods. unfold_monad. destruct s as [pk al rg [|]]; simpl.
  - case_split; solve [reflexivity | congruence].
  - case_split; solve [reflexivity | congruence].
Qed.

Lemma run_set_registration_status i b s :
  run (set_registration_status i b) s =
  if PyList.contains i (allowed_workers s) then
    match PyDict.get i (registered_workers s) with
    | Some _ =>
        (Return (i, true),
         set_registered_workers (PyDict.set i b (registered_workers s)) s)
    | None => (Raise (KeyError i), s)
    end
  else (Return (INVALID_WORKER, false), s).
Proof. unfold_methods. unfold_monad. case_split; solve [reflexivity | congruence]. Qed.

Lemma run_remove_worker i s :
  run (remove_worker i) s =
  if PyList.contains i (allowed_workers s) then
    match PyList.remove i (allowed_workers s) with
    | Some l =>
        (Return (i, true),
         mkWorkerManager
           (if do_public_key_auth s && PyDict.mem i (public_keys s)
            then PyDict.del i (public_keys s) else public_keys s)
           l (registered_workers s) (do_public_key_auth s))
    | None => (Raise (ValueError "list.remove(x): x not in list"), s)
    end
  else (Return (INVALID_WORKER, false), s).
Proof.
  unfold_methods. unfold_monad. destruct s as [pk al rg [|]]; simpl.
  - case_split; solve [reflexivity | congruence].
  - case_split; solve [reflexivity | congruence].
Qed.

Lemma run_authenticate_worker k sg s :
  run (authenticate_worker k sg) s =
  if negb (do_public_key_auth s) then (Return (true, NO_AUTHENTICATION), s)
  else
    match PyDict.get k (public_keys s) with
    | None => (Return (false, AUTHENTICATED), s)
    | Some vk =>
        match VerifyKey_verify vk sg with
        | Return _ => (Return (true, AUTHENTICATED), s)
        | Raise e =>
            if is_BadSignatureError e then (Return (false, AUTHENTICATED), s)
            else (Raise e, s)
        end
    end.
Proof.
  unfold_methods. unfold_monad. unfold PyDict.mem.
  destruct (do_public_key_auth s); simpl; [|reflexivity].
  destruct (PyDict.get k (public_keys s)) as [vk|]; simpl; [|reflexivity].
  destruct (VerifyKey_verify vk sg) as [[]|e]; simpl; [reflexivity|].
  destruct (is_BadSignatureError e); reflexivity.
Qed.

Lemma run_add_worker now k s :
  run (add_worker now k) s =
  if do_public_key_auth s then
    match run (add_public_key k) s with
    | (Return true, s1) => run (_add_worker now k) s1
    | (Return false, s1) => (Return (INVALID_WORKER, false), s1)
    | (Raise e, s1) => (Raise e, s1)
    end
  else run (_add_worker now k) s.
Proof.
  unfold add_worker. rewrite run_bind. unfold self at 1, run at 1. simpl.
  destruct (do_public_key_auth s); [|reflexivity].
  rewrite run_bind. destruct (run (add_public_key k) s) as [[[|]|e] s1]; reflexivity.
Qed.

Lemma run_authenticate_and_add_worker now k sg s :
  run (authenticate_and_add_worker now k sg) s =
  match run (authenticate_worker k sg) s with
  | (Return (true, _), s1) =>
      match run (_add_worker now k) s1 with
      | (Return (worker_id, _), s2) => run (set_registration_status worker_id true) s2
      | (Raise e, s2) => (Raise e, s2)
      end
  | (Return (false, _), s1) => (Return (INVALID_WORKER, false), s1)
  | (Raise e, s1) => (Raise e, s1)
  end.
Proof.
  unfold authenticate_and_add_worker. rewrite run_bind.
  destruct (run (authenticate_worker k sg) s) as [[[[|] mode]|e] s1]; simpl; try reflexivity.
  rewrite run_bind.
  destruct (run (_add_worker now k) s1) as [[[worker_id ok]|e] s2]; reflexivity.
Qed.

Lemma run_is_worker_allowed i s :
  run (is_worker_allowed i) s = (Return (PyList.contains i (allowed_workers s)), s).
Proof. reflexivity. Qed.

Lemma run_is_worker_registered i s :
  run (is_worker_registered i) s =
  (Return (match PyDict.get i (registered_workers s) with
           | Some b => b
           | None => false
           end), s).
Proof.
  unfold_methods. unfold_monad. unfold PyDict.mem. simpl.
  destruct (PyDict.get i (registered_workers s)); reflexivity.
Qed.

Lemma run_get_worker_list s :
  run get_worker_list s =
  (Return (map (fun item => worker_row (fst item) (snd item)) (registered_workers s)), s).
Proof.
  unfold_methods. unfold_monad. unfold PyDict.items. simpl. f_equal. f_equal.
  apply map_ext. intros [i b]. reflexivity.
Qed.

(** ** Invariants are carried from construction through every call *)

Lemma state_after_run {A} (m : M A) s : state_after (m s) = snd (run m s).
Proof. reflexivity. Qed.

(** A property kept by the five mutating building blocks is kept by a
    call; [delete_public_key] and [remove_worker] only matter for the
    call at hand. *)
Lemma exec_invariant (Inv : WorkerManager -> Prop) c s :
  (forall s k, Inv s -> Inv (snd (run (add_public_key k) s))) ->
  (forall s now k, Inv s -> Inv (snd (run (_add_worker now k) s))) ->
  (forall s i b, Inv s -> Inv (snd (run (set_registration_status i b) s))) ->
  (forall k, c = Delete_public_key k -> Inv s -> Inv (snd (run (delete_public_key k) s))) ->
  (forall i, c = Remove_worker i -> Inv s -> Inv (snd (run (remove_worker i) s))) ->
  Inv s -> Inv (exec c s).
Proof.
  intros Hkey Hadd Hset Hdel Hrem HI.
  destruct c as [now k sg|now k|i b|i|k|k| |now k|k sg| |i|i];
    unfold exec; rewrite state_after_run.
  - rewrite run_authenticate_and_add_worker, run_authenticate_worker.
    assert (Hstep : Inv (snd match run (_add_worker now k) s with
                             | (Return (worker_id, _), s2) =>
                                 run (set_registration_status worker_id true) s2
                             | (Raise e, s2) => (Raise e, s2)
                             end)).
    { pose proof (Hadd s now k HI) as H1.
      destruct (run (_add_worker now k) s) as [[[w ok]|e] s2]; simpl in *; auto. }
    destruct (negb (do_public_key_auth s)); [exact Hstep|].
    destruct (PyDict.get k (public_keys s)) as [vk|]; [|exact HI].
    destruct (VerifyKey_verify vk sg) as [[]|e]; [exact Hstep|].
    destruct (is_BadSignatureError e); exact HI.
  - rewrite run_add_worker. destruct (do_public_key_auth s); [|auto].
    pose proof (Hkey s k HI) as H1.
    destruct (run (add_public_key k) s) as [[[|]|e] s1]; simpl in *; auto.
  - auto.
  - auto.
  - auto.
  - auto.
  - exact HI.
  - rewrite run_generate_id_for_worker. exact HI.
  - rewrite run_authenticate_worker.
    destruct (negb (do_public_key_auth s)); [exact HI|].
    destruct (PyDict.get k (public_keys s)) as [vk|]; [|exact HI].
    destruct (VerifyKey_verify vk sg) as [[]|e]; [exact HI|].
    destruct (is_BadSignatureError e); exact HI.
  - rewrite run_get_worker_list. exact HI.
  - exact HI.
  - rewrite run_is_worker_registered. exact HI.
Qed.

Lemma load_keys_invariant (Inv : WorkerManager -> Prop) now keys :
  (forall s k, Inv s -> Inv (snd (run (add_public_key k) s))) ->
  (forall s now k, Inv s -> Inv (snd (run (_add_worker now k) s))) ->
  forall s, Inv s -> Inv (snd (run (load_keys now keys) s)).
Proof.
  intros Hkey Hadd. induction keys as [|key rest IH]; intros s HI; [exact HI|].
  assert (Hw : forall s, Inv s -> Inv (snd (run (add_worker now key) s))).
  { intros s0 H0. rewrite run_add_worker. destruct (do_public_key_auth s0); [|auto].
    pose proof (Hkey s0 key H0) as H1.
    destruct (run (add_public_key key) s0) as [[[|]|e] s1]; simpl in *; auto. }
  simpl. rewrite run_bind. pose proof (Hkey s key HI) as H1.
  destruct (run (add_public_key key) s) as [[[|]|e] s1]; simpl in *; [| |exact H1].
  - rewrite run_bind, run_bind. pose proof (Hw s1 H1) as H2.
    destruct (run (add_worker now key) s1) as [[r|e] s2]; simpl in *; [|exact H2].
    apply IH. exact H2.
  - rewrite run_bind. unfold logger at 1, run at 1. simpl. apply IH. exact H1.
Qed.

Lemma init_invariant (Inv : WorkerManager -> Prop) now safe file s l :
  (forall b, Inv (new_object b)) ->
  (forall s k, Inv s -> Inv (snd (run (add_public_key k) s))) ->
  (forall s now k, Inv s -> Inv (snd (run (_add_worker now k) s))) ->
  __init__ now safe file = (Return s, l) -> Inv s.
Proof.
  intros Hnew Hkey Hadd. unfold __init__.
  destruct safe; simpl; destruct file as [path|]; try (intros [= <- _]; apply Hnew);
    try discriminate.
  pose proof (load_keys_invariant Inv now) as Hload.
  unfold run in Hload. unfold bind, lift.
  destruct (read_splitlines path) as [keys|e]; [|discriminate].
  specialize (Hload keys Hkey Hadd (new_object true) (Hnew true)).
  destruct (load_keys now keys (new_object true)) as [[[u|e] s1] l1]; simpl in *.
  - intros [= <- _]. exact Hload.
  - discriminate.
Qed.

Lemma reachable_by_invariant permitted (Inv : WorkerManager -> Prop) :
  (forall b, Inv (new_object b)) ->
  (forall s k, Inv s -> Inv (snd (run (add_public_key k) s))) ->
  (forall s now k, Inv s -> Inv (snd (run (_add_worker now k) s))) ->
  (forall s i b, Inv s -> Inv (snd (run (set_registration_status i b) s))) ->
  (forall s k, permitted s (Delete_public_key k) ->
               Inv s -> Inv (snd (run (delete_public_key k) s))) ->
  (forall s i, permitted s (Remove_worker i) ->
               Inv s -> Inv (snd (run (remove_worker i) s))) ->
  forall s, reachable_by permitted s -> Inv s.
Proof.
  intros Hnew Hkey Hadd Hset Hdel Hrem s Hreach.
  induction Hreach as [now safe file s l Hinit | s c Hreach IH Hperm].
  - eapply init_invariant; eauto.
  - apply exec_invariant; auto.
    + intros k ->. auto.
    + intros i ->. auto.
Qed.

(** ** The invariants in logical form *)

Lemma allowed_have_status_true s :
  allowed_have_status s = true <->
  forall i, In i (allowed_workers s) -> PyDict.mem i (registered_workers s) = true.
Proof. unfold allowed_have_status. apply forallb_forall. Qed.

Lemma I1_true s :
  I1 s = true <->
  (do_public_key_auth s = true ->
   forall i, In i (allowed_workers s) -> PyDict.mem i (public_keys s) = true).
Proof.
  unfold I1. rewrite orb_true_iff, forallb_forall, negb_true_iff. split.
  - intros [Hf|Hall] Ht; [congruence | exact Hall].
  - intros H. destruct (do_public_key_auth s); [right; auto | left; reflexivity].
Qed.

Lemma I2_true s :
  I2 s = true <->
  forall i, PyDict.mem i (registered_workers s) = true -> In i (allowed_workers s).
Proof.
  unfold I2. rewrite forallb_forall. split.
  - intros H i Hi. apply PyListFacts.contains_In, H, PyDictFacts.mem_keys, Hi.
  - intros H i Hi. apply PyListFacts.contains_In, H, PyDictFacts.mem_keys, Hi.
Qed.

Lemma I3_true s :
  I3 s = true <-> (do_public_key_auth s = false -> public_keys s = []).
Proof.
  unfold I3. destruct (do_public_key_auth s); simpl.
  - split; [discriminate | reflexivity].
  - destruct (public_keys s); split; auto; try discriminate.
    intros H. discriminate (H eq_refl).
Qed.

(** ** Each building block and the invariants *)

Lemma consistent_new_object b : consistent (new_object b).
Proof. split; simpl; [constructor | tauto]. Qed.

Lemma consistent_add_public_key s k :
  consistent s -> consistent (snd (run (add_public_key k) s)).
Proof.
  intros [Hnd Hst]. rewrite run_add_public_key.
  destruct (negb (do_public_key_auth s)); [split; assumption|].
  destruct (negb (PyDict.mem k (public_keys s))); [|split; assumption].
  destruct (VerifyKey_new k); split; assumption.
Qed.

Lemma consistent_delete_public_key s k :
  consistent s -> consistent (snd (run (delete_public_key k) s)).
Proof.
  intros [Hnd Hst]. rewrite run_delete_public_key. simpl.
  destruct (do_public_key_auth s && PyDict.mem k (public_keys s)); split; assumption.
Qed.

Lemma consistent__add_worker s now k :
  consistent s -> consistent (snd (run (_add_worker now k) s)).
Proof.
  intros [Hnd Hst]. rewrite run__add_worker. cbv zeta.
  set (w := if do_public_key_auth s then k else _).
  destruct (consistency_fault k s); [split; assumption|].
  destruct (PyList.contains w (allowed_workers s)) eqn:Hw; simpl; [split; assumption|].
  apply PyListFacts.contains_false in Hw. split; simpl.
  - apply PyListFacts.append_NoDup; assumption.
  - intros i Hi. rewrite PyDictFacts.mem_set.
    unfold PyList.append in Hi. apply in_app_iff in Hi as [Hi|[<-|[]]].
    + rewrite (Hst i Hi). apply orb_true_r.
    + now rewrite String.eqb_refl.
Qed.

Lemma consistent_set_registration_status s i b :
  consistent s -> consistent (snd (run (set_registration_status i b) s)).
Proof.
  intros [Hnd Hst]. rewrite run_set_registration_status.
  destruct (PyList.contains i (allowed_workers s)); [|split; assumption].
  destruct (PyDict.get i (registered_workers s)); [|split; assumption].
  split; simpl; [assumption|].
  intros j Hj. rewrite PyDictFacts.mem_set, (Hst j Hj). apply orb_true_r.
Qed.

Lemma consistent_remove_worker s i :
  consistent s -> consistent (snd (run (remove_worker i) s)).
Proof.
  intros [Hnd Hst]. rewrite run_remove_worker.
  destruct (PyList.contains i (allowed_workers s)); [|split; assumption].
  destruct (PyList.remove i (allowed_workers s)) as [l|] eqn:Hl; [|split; assumption].
  split; simpl.
  - eapply PyListFacts.remove_NoDup; eauto.
  - intros j Hj. apply Hst. eapply PyListFacts.remove_In; eauto.
Qed.

Lemma reachable_by_consistent permitted s : reachable_by permitted s -> consistent s.
Proof.
  apply reachable_by_invariant.
  - apply consistent_new_object.
  - apply consistent_add_public_key.
  - apply consistent__add_worker.
  - apply consistent_set_registration_status.
  - intros s0 k _. apply consistent_delete_public_key.
  - intros s0 i _. apply consistent_remove_worker.
Qed.

(** The mode never changes after construction. *)
Lemma exec_do_public_key_auth c s :
  do_public_key_auth (exec c s) = do_public_key_auth s.
Proof.
  apply (exec_invariant (fun s' => do_public_key_auth s' = do_public_key_auth s));
    try reflexivity.
  - intros s0 k H. rewrite run_add_public_key.
    destruct (negb (do_public_key_auth s0)); [exact H|].
    destruct (negb (PyDict.mem k (public_keys s0))); [|exact H].
    destruct (VerifyKey_new k); exact H.
  - intros s0 now k H. rewrite run__add_worker. cbv zeta.
    destruct (consistency_fault k s0); [exact H|].
    destruct (negb (PyList.contains _ (allowed_workers s0))); exact H.
  - intros s0 i b H. rewrite run_set_registration_status.
    destruct (PyList.contains i (allowed_workers s0)); [|exact H].
    destruct (PyDict.get i (registered_workers s0)); exact H.
  - intros k _ _. rewrite run_delete_public_key. simpl.
    destruct (do_public_key_auth s && PyDict.mem k (public_keys s)); reflexivity.
  - intros i _ _. rewrite run_remove_worker.
    destruct (PyList.contains i (allowed_workers s)); [|reflexivity].
    destruct (PyList.remove i (allowed_workers s)); reflexivity.
Qed.

(** ** What the logger receives *)

Lemma logs_error__add_worker now k s :
  logs_error (_add_worker now k s) = consistency_fault k s.
Proof.
  unfold consistency_fault. unfold_methods. unfold_monad.
  destruct s as [pk al rg [|]]; simpl; case_split; reflexivity.
Qed.

Lemma logs_error_add_public_key k s : logs_error (add_public_key k s) = false.
Proof. unfold_methods. unfold_monad. case_split; reflexivity. Qed.

Lemma logs_error_authenticate_worker k sg s :
  logs_error (authenticate_worker k sg s) = false.
Proof.
  unfold_methods. unfold_monad. simpl.
  destruct (do_public_key_auth s); simpl; [|reflexivity].
  destruct (PyDict.mem k (public_keys s)); simpl; [|reflexivity].
  destruct (PyDict.get k (public_keys s)) as [vk|]; simpl; [|reflexivity].
  destruct (VerifyKey_verify vk sg) as [[]|e]; simpl; [reflexivity|].
  destruct (is_BadSignatureError e); reflexivity.
Qed.

Lemma logs_error_set_registration_status i b s :
  logs_error (set_registration_status i b s) = false.
Proof. unfold_methods. unfold_monad. case_split; reflexivity. Qed.

Lemma consistency_fault_after_add_public_key k s s1 :
  do_public_key_auth s = true ->
  run (add_public_key k) s = (Return true, s1) ->
  consistency_fault k s1 = false.
Proof.
  intros Hauth. rewrite run_add_public_key, Hauth. simpl. unfold consistency_fault.
  destruct (PyDict.mem k (public_keys s)) eqn:Hmem; simpl.
  - intros [= <-]. now rewrite Hauth, Hmem.
  - destruct (VerifyKey_new k) as [vk|e]; [|discriminate].
    intros [= <-]. simpl. rewrite PyDictFacts.mem_set, String.eqb_refl, Hauth. reflexivity.
Qed.

Lemma consistency_fault_after_authenticate k sg s mode s1 :
  run (authenticate_worker k sg) s = (Return (true, mode), s1) ->
  consistency_fault k s1 = false.
Proof.
  rewrite run_authenticate_worker. unfold consistency_fault, PyDict.mem.
  destruct (do_public_key_auth s) eqn:Hauth; simpl.
  - destruct (PyDict.get k (public_keys s)) as [vk|] eqn:Hget; [|discriminate].
    destruct (VerifyKey_verify vk sg) as [[]|e].
    + intros [= _ <-]. now rewrite Hauth, Hget.
    + destruct (is_BadSignatureError e); discriminate.
  - intros [= _ <-]. now rewrite Hauth.
Qed.

(** ** Properties of the manager *)

(** C8.  Constructing the manager in unsafe mode with a key list file
    raises ValueError whatever the path and whatever the file system
    holds (the file is never opened); in unsafe mode without a key list
    the construction succeeds and yields the object with the three
    containers empty and key authentication off. *)
Theorem init_unsafe_mode now :
  (forall path,
     __init__ now false (Some path) =
     (Raise (ValueError config_error_str), [(ERROR, config_error_str)])) /\
  result_of_init (__init__ now false None) = Some (mkWorkerManager [] [] [] false).
Proof. split; reflexivity. Qed.

(** C9.  [_add_worker] logs at ERROR level exactly when it takes the
    consistency-fault branch (key authentication on, key text not
    stored), where it returns the diagnostic message paired with False;
    neither [add_worker] nor
    [authenticate_and_add_worker] ever logs at that level, on any object
    and for any arguments: [add_worker] reaches [_add_worker] only after
    [add_public_key] returned True, and [authenticate_and_add_worker]
    only after the authentication found the key stored (or in unsafe
    mode, where the branch is disabled). *)
Theorem consistency_fault_unreachable now k sg s :
  (forall s', logs_error (_add_worker now k s') = consistency_fault k s') /\
  (forall s', consistency_fault k s' = true ->
     run (_add_worker now k) s' =
     (Return (message_seriously_wrong "trying to add worker without adding worker first",
              false), s')) /\
  logs_error (add_worker now k s) = false /\
  logs_error (authenticate_and_add_worker now k sg s) = false.
Proof.
  split; [intros s'; apply logs_error__add_worker|].
  split; [intros s' Hfault; rewrite run__add_worker; cbv zeta; now rewrite Hfault|].
  split.
  - unfold add_worker. rewrite logs_error_bind. unfold self at 1 2, run at 1.
    cbn [fst]. cbv beta iota. cbn [logs_error logged snd existsb orb].
    destruct (do_public_key_auth s) eqn:Hauth.
    + rewrite logs_error_bind, logs_error_add_public_key.
      destruct (run (add_public_key k) s) as [[[|]|e] s1] eqn:Hrun; simpl; [| |reflexivity].
      * rewrite logs_error__add_worker.
        eapply consistency_fault_after_add_public_key; eauto.
      * reflexivity.
    + rewrite logs_error__add_worker. unfold consistency_fault. now rewrite Hauth.
  - unfold authenticate_and_add_worker.
    rewrite logs_error_bind, logs_error_authenticate_worker.
    destruct (run (authenticate_worker k sg) s) as [[[[|] mode]|e] s1] eqn:Hrun;
      simpl; [| reflexivity | reflexivity].
    rewrite logs_error_bind, logs_error__add_worker.
    rewrite (consistency_fault_after_authenticate _ _ _ _ _ Hrun).
    destruct (run (_add_worker now k) s1) as [[[w ok]|e] s2]; simpl; [|reflexivity].
    apply logs_error_set_registration_status.
Qed.

Lemma exec_remove_worker_allowed s i :
  reachable s ->
  PyList.contains i (allowed_workers s) = true ->
  PyList.contains i (allowed_workers (exec (Remove_worker i) s)) = false /\
  registered_workers (exec (Remove_worker i) s) = registered_workers s /\
  PyDict.mem i (registered_workers (exec (Remove_worker i) s)) = true.
Proof.
  intros Hreach Hi. apply reachable_by_consistent in Hreach as [Hnd Hst].
  unfold exec. rewrite state_after_run, run_remove_worker, Hi.
  destruct (PyListFacts.remove_Some _ _ Hi) as [l Hl]. rewrite Hl.
  destruct (PyListFacts.remove_NoDup _ _ _ Hl Hnd) as [_ Hnotin].
  apply PyListFacts.contains_false in Hnotin. simpl. repeat split; [exact Hnotin|].
  apply Hst, PyListFacts.contains_In, Hi.
Qed.

(** C10.  In every object reachable by public calls each allowed worker
    has an entry in [registered_workers]; hence the lookup
    [registered_workers[worker_id]] that [set_registration_status]
    performs for an allowed worker finds a boolean, and the call returns
    [(worker_id, True)] with the entry overwritten instead of raising
    KeyError. *)
Theorem allowed_workers_have_status s :
  reachable s ->
  allowed_have_status s = true /\
  forall i b,
    PyList.contains i (allowed_workers s) = true ->
    exists old_status,
      PyDict.get i (registered_workers s) = Some old_status /\
      run (set_registration_status i b) s =
      (Return (i, true),
       set_registered_workers (PyDict.set i b (registered_workers s)) s).
Proof.
  intros Hreach. apply reachable_by_consistent in Hreach as [Hnd Hst]. split.
  - apply allowed_have_status_true. exact Hst.
  - intros i b Hi. rewrite run_set_registration_status, Hi.
    apply PyListFacts.contains_In, Hst, PyDictFacts.mem_get in Hi as [old Hold].
    exists old. rewrite Hold. split; reflexivity.
Qed.

(** C1.  What [remove_worker] does for an allowed worker of a reachable
    object: it returns [(worker_id, True)], the worker is no longer
    allowed and a second [remove_worker] returns
    [(INVALID_WORKER, False)]; but [registered_workers] is left as it
    was, so the entry of the removed worker stays and
    [is_worker_registered] answers what it answered before the removal. *)
Theorem remove_worker_keeps_registration_entry s i :
  reachable s ->
  PyList.contains i (allowed_workers s) = true ->
  exists s1,
    run (remove_worker i) s = (Return (i, true), s1) /\
    run (is_worker_allowed i) s1 = (Return false, s1) /\
    run (remove_worker i) s1 = (Return (INVALID_WORKER, false), s1) /\
    registered_workers s1 = registered_workers s /\
    PyDict.mem i (registered_workers s1) = true /\
    fst (run (is_worker_registered i) s1) = fst (run (is_worker_registered i) s).
Proof.
  intros Hreach Hi. apply reachable_by_consistent in Hreach as [Hnd Hst].
  rewrite run_remove_worker, Hi.
  destruct (PyListFacts.remove_Some _ _ Hi) as [l Hl]. rewrite Hl.
  destruct (PyListFacts.remove_NoDup _ _ _ Hl Hnd) as [_ Hnotin].
  apply PyListFacts.contains_false in Hnotin.
  eexists. split; [reflexivity|].
  rewrite run_is_worker_allowed, run_remove_worker, !run_is_worker_registered.
  simpl. rewrite Hnotin. repeat split.
  apply Hst, PyListFacts.contains_In, Hi.
Qed.

(** C2.  [remove_worker] breaks (I2): after removing an allowed worker
    from a reachable object, the object is still reachable, the worker
    is not allowed any more, yet it remains a key of
    [registered_workers], (I2) is false and [get_worker_list] still
    reports a row for it. *)
Theorem remove_worker_breaks_I2 s i :
  reachable s ->
  PyList.contains i (allowed_workers s) = true ->
  let s1 := exec (Remove_worker i) s in
  reachable s1 /\
  PyList.contains i (allowed_workers s1) = false /\
  I2 s1 = false /\
  exists value rows,
    run get_worker_list s1 = (Return rows, s1) /\ In (worker_row i value) rows.
Proof.
  intros Hreach Hi s1.
  destruct (exec_remove_worker_allowed s i Hreach Hi)
    as (Hal & Hrg & Hmem).
  fold s1 in Hal, Hrg, Hmem. split; [|split; [exact Hal|split]].
  - apply reachable_call; [exact Hreach | exact I].
  - destruct (I2 s1) eqn:HI2; [|reflexivity].
    rewrite I2_true in HI2. apply HI2, PyListFacts.contains_In in Hmem. congruence.
  - apply PyDictFacts.mem_get in Hmem as [value Hget].
    exists value, (map (fun item => worker_row (fst item) (snd item)) (registered_workers s1)).
    split; [apply run_get_worker_list|].
    apply PyDictFacts.get_In in Hget.
    apply (in_map (fun item => worker_row (fst item) (snd item))) in Hget. exact Hget.
Qed.

(** (I1) along calls that keep the keys of allowed workers. *)
Lemma reachable_keeping_keys_I1 s :
  reachable_by keeps_allowed_keys s -> consistent s /\ I1 s = true.
Proof.
  apply (reachable_by_invariant keeps_allowed_keys
           (fun s => consistent s /\ I1 s = true)).
  - intros b. split; [apply consistent_new_object|]. destruct b; reflexivity.
  - intros s0 k [Hc H1]. split; [now apply consistent_add_public_key|].
    rewrite I1_true in *. revert H1. rewrite run_add_public_key.
    destruct (negb (do_public_key_auth s0)); [auto|].
    destruct (negb (PyDict.mem k (public_keys s0))); [|auto].
    destruct (VerifyKey_new k) as [vk|e]; [|auto]. simpl.
    intros H1 Hauth i Hi. rewrite PyDictFacts.mem_set, (H1 Hauth i Hi). apply orb_true_r.
  - intros s0 now k [Hc H1]. split; [now apply consistent__add_worker|].
    rewrite I1_true in *. revert H1. rewrite run__add_worker. cbv zeta.
    unfold consistency_fault.
    destruct (do_public_key_auth s0) eqn:Hauth; simpl.
    + destruct (PyDict.mem k (public_keys s0)) eqn:Hk; simpl; [|auto].
      destruct (PyList.contains k (allowed_workers s0)); simpl; [auto|].
      intros H1 _ i Hi. unfold PyList.append in Hi.
      apply in_app_iff in Hi as [Hi|[<-|[]]]; auto.
    + destruct (negb (PyList.contains _ (allowed_workers s0))); simpl;
        intros _ Hf; congruence.
  - intros s0 i b [Hc H1]. split; [now apply consistent_set_registration_status|].
    rewrite I1_true in *. revert H1. rewrite run_set_registration_status.
    destruct (PyList.contains i (allowed_workers s0)); [|auto].
    destruct (PyDict.get i (registered_workers s0)); auto.
  - intros s0 k Hperm [Hc H1]. split; [now apply consistent_delete_public_key|].
    simpl in Hperm. apply PyListFacts.contains_false in Hperm.
    rewrite I1_true in *. revert H1. rewrite run_delete_public_key. simpl.
    destruct (do_public_key_auth s0 && PyDict.mem k (public_keys s0)); [|auto]. simpl.
    intros H1 Hauth i Hi. rewrite PyDictFacts.mem_del, (H1 Hauth i Hi).
    destruct (String.eqb_spec i k) as [->|Hne]; [contradiction | reflexivity].
  - intros s0 i _ [Hc H1]. split; [now apply consistent_remove_worker|].
    destruct Hc as [Hnd Hst].
    rewrite I1_true in *. revert H1. rewrite run_remove_worker.
    destruct (PyList.contains i (allowed_workers s0)); [|auto].
    destruct (PyList.remove i (allowed_workers s0)) as [l|] eqn:Hl; [|auto]. simpl.
    intros H1 Hauth j Hj.
    destruct (PyListFacts.remove_NoDup _ _ _ Hl Hnd) as [_ Hnotin].
    assert (Hne : j <> i) by (intros ->; contradiction).
    assert (Hj' : PyDict.mem j (public_keys s0) = true)
      by (apply (H1 Hauth); eapply PyListFacts.remove_In; eauto).
    destruct (do_public_key_auth s0 && PyDict.mem i (public_keys s0)); [|exact Hj'].
    rewrite PyDictFacts.mem_del, Hj'.
    destruct (String.eqb_spec j i); [contradiction | reflexivity].
Qed.

(** (I2) along calls other than [remove_worker]. *)
Lemma reachable_without_remove_I2 s :
  reachable_by never_removes s -> I2 s = true.
Proof.
  apply (reachable_by_invariant never_removes (fun s => I2 s = true)).
  - intros b. reflexivity.
  - intros s0 k. rewrite !I2_true, run_add_public_key.
    destruct (negb (do_public_key_auth s0)); [auto|].
    destruct (negb (PyDict.mem k (public_keys s0))); [|auto].
    destruct (VerifyKey_new k); auto.
  - intros s0 now k. rewrite !I2_true, run__add_worker. cbv zeta.
    destruct (consistency_fault k s0); [auto|].
    destruct (negb (PyList.contains _ (allowed_workers s0))); [|auto]. simpl.
    intros H2 i. rewrite PyDictFacts.mem_set. unfold PyList.append. rewrite in_app_iff.
    destruct (String.eqb_spec i (if do_public_key_auth s0 then k
                                 else sha224_hexdigest now +++ "_unauthenticated"))
      as [->|Hne]; simpl; [intros _; right; left; reflexivity | auto].
  - intros s0 i b. rewrite !I2_true, run_set_registration_status.
    destruct (PyList.contains i (allowed_workers s0)) eqn:Hi; [|auto].
    destruct (PyDict.get i (registered_workers s0)); [|auto]. simpl.
    intros H2 j. rewrite PyDictFacts.mem_set.
    destruct (String.eqb_spec j i) as [->|Hne]; simpl; [|auto].
    intros _. apply PyListFacts.contains_In, Hi.
  - intros s0 k _. rewrite !I2_true, run_delete_public_key. simpl.
    destruct (do_public_key_auth s0 && PyDict.mem k (public_keys s0)); auto.
  - intros s0 i [].
Qed.

(** (I3) holds in every reachable object. *)
Lemma reachable_I3 permitted s : reachable_by permitted s -> I3 s = true.
Proof.
  apply (reachable_by_invariant permitted (fun s => I3 s = true)).
  - intros []; reflexivity.
  - intros s0 k. rewrite !I3_true, run_add_public_key.
    destruct s0 as [pk al rg [|]]; simpl; [|auto].
    destruct (negb (PyDict.mem k pk)); [|auto].
    destruct (VerifyKey_new k); simpl; intros _ Hf; discriminate.
  - intros s0 now k. rewrite !I3_true, run__add_worker. cbv zeta.
    destruct (consistency_fault k s0); [auto|].
    destruct (negb (PyList.contains _ (allowed_workers s0))); auto.
  - intros s0 i b. rewrite !I3_true, run_set_registration_status.
    destruct (PyList.contains i (allowed_workers s0)); [|auto].
    destruct (PyDict.get i (registered_workers s0)); auto.
  - intros s0 k _. rewrite !I3_true, run_delete_public_key.
    destruct s0 as [pk al rg [|]]; simpl; [|auto].
    destruct (PyDict.mem k pk); simpl; intros _ Hf; discriminate.
  - intros s0 i _. rewrite !I3_true, run_remove_worker.
    destruct (PyList.contains i (allowed_workers s0)); [|auto].
    destruct (PyList.remove i (allowed_workers s0)); [|auto].
    destruct s0 as [pk al rg [|]]; simpl; [intros _ Hf; discriminate | auto].
Qed.

(** ** Adding and authenticating workers *)

Lemma run_add_worker_stored now k s :
  do_public_key_auth s = true ->
  PyDict.mem k (public_keys s) = true ->
  run (add_worker now k) s =
  if PyList.contains k (allowed_workers s) then (Return (k, false), s)
  else (Return (k, true),
        mkWorkerManager (public_keys s) (PyList.append k (allowed_workers s))
          (PyDict.set k false (registered_workers s)) true).
Proof.
  intros Hauth Hk.
  rewrite run_add_worker, run_add_public_key, Hauth, Hk. simpl.
  rewrite run__add_worker. unfold consistency_fault. rewrite Hauth, Hk. simpl.
  destruct (PyList.contains k (allowed_workers s)); reflexivity.
Qed.

Lemma run__add_worker_stored now k s :
  do_public_key_auth s = true ->
  PyDict.mem k (public_keys s) = true ->
  run (_add_worker now k) s =
  if PyList.contains k (allowed_workers s) then (Return (k, false), s)
  else (Return (k, true),
        mkWorkerManager (public_keys s) (PyList.append k (allowed_workers s))
          (PyDict.set k false (registered_workers s)) true).
Proof.
  intros Hauth Hk.
  rewrite run__add_worker. unfold consistency_fault. rewrite Hauth, Hk. simpl.
  destruct (PyList.contains k (allowed_workers s)); reflexivity.
Qed.

(** C3.  [authenticate_and_add_worker] on a reachable object in safe
    mode, case by case: if the key text is stored and [verify] accepts
    the signed phrase, it returns [(public_key_str, True)] and
    [is_worker_registered] is then True; if the key text is not stored,
    or [verify] raises BadSignatureError, it returns
    [(INVALID_WORKER, False)] and the object is exactly what it was;
    but when [verify] raises any other exception (such as the decoding
    error of a signed phrase that is not hexadecimal) the method does
    not return [(INVALID_WORKER, False)]: the exception leaves it, with
    the object unchanged. *)
Theorem authenticate_and_add_worker_registers s now k sg :
  reachable s ->
  do_public_key_auth s = true ->
  (forall vk,
     PyDict.get k (public_keys s) = Some vk ->
     VerifyKey_verify vk sg = Return tt ->
     exists s1,
       run (authenticate_and_add_worker now k sg) s = (Return (k, true), s1) /\
       run (is_worker_registered k) s1 = (Return true, s1)) /\
  ((PyDict.get k (public_keys s) = None \/
    exists vk, PyDict.get k (public_keys s) = Some vk /\
               VerifyKey_verify vk sg = Raise BadSignatureError) ->
   run (authenticate_and_add_worker now k sg) s = (Return (INVALID_WORKER, false), s)) /\
  (forall vk e,
     PyDict.get k (public_keys s) = Some vk ->
     VerifyKey_verify vk sg = Raise e ->
     is_BadSignatureError e = false ->
     run (authenticate_and_add_worker now k sg) s = (Raise e, s)).
Proof.
  intros Hreach Hauth. apply reachable_by_consistent in Hreach as [Hnd Hst].
  rewrite run_authenticate_and_add_worker, run_authenticate_worker, Hauth. simpl.
  split; [|split; [|intros vk e -> -> ->; reflexivity]].
  - intros vk Hget Hver. rewrite Hget, Hver.
    assert (Hk : PyDict.mem k (public_keys s) = true)
      by (apply PyDictFacts.mem_get; eauto).
    rewrite (run__add_worker_stored now k s Hauth Hk).
    destruct (PyList.contains k (allowed_workers s)) eqn:Hal.
    + rewrite run_set_registration_status, Hal.
      pose proof (Hst k (proj1 (PyListFacts.contains_In _ _) Hal)) as Hrg.
      apply PyDictFacts.mem_get in Hrg as [old Hold]. rewrite Hold.
      eexists. split; [reflexivity|].
      rewrite run_is_worker_registered. simpl.
      now rewrite PyDictFacts.get_set_same.
    + rewrite run_set_registration_status. simpl.
      rewrite PyListFacts.contains_append, String.eqb_refl, orb_true_r.
      rewrite PyDictFacts.get_set_same.
      eexists. split; [reflexivity|].
      rewrite run_is_worker_registered. simpl.
      now rewrite PyDictFacts.get_set_same.
  - intros [Hnone | (vk & Hget & Hver)].
    + now rewrite Hnone.
    + now rewrite Hget, Hver.
Qed.

(** C4.  [authenticate_worker] in safe mode, case by case: an unknown
    key text gives [(False, AUTHENTICATED)]; for a stored key, an
    accepted signature gives [(True, AUTHENTICATED)] and
    BadSignatureError gives [(False, AUTHENTICATED)]; but any other
    exception raised by [verify] (such as the decoding error of a
    signed message that is not hexadecimal) is not caught and leaves
    the method as an exception. *)
Theorem authenticate_worker_lets_errors_through s k sg :
  do_public_key_auth s = true ->
  (PyDict.get k (public_keys s) = None ->
   run (authenticate_worker k sg) s = (Return (false, AUTHENTICATED), s)) /\
  (forall vk,
     PyDict.get k (public_keys s) = Some vk ->
     (VerifyKey_verify vk sg = Return tt ->
      run (authenticate_worker k sg) s = (Return (true, AUTHENTICATED), s)) /\
     (VerifyKey_verify vk sg = Raise BadSignatureError ->
      run (authenticate_worker k sg) s = (Return (false, AUTHENTICATED), s)) /\
     (forall e,
        VerifyKey_verify vk sg = Raise e ->
        is_BadSignatureError e = false ->
        run (authenticate_worker k sg) s = (Raise e, s))).
Proof.
  intros Hauth. rewrite run_authenticate_worker, Hauth. simpl. split.
  - intros ->. reflexivity.
  - intros vk ->. repeat split.
    + intros ->. reflexivity.
    + intros ->. reflexivity.
    + intros e -> ->. reflexivity.
Qed.

(** Every stored verifying key was built from its key text. *)
Lemma reachable_keys_decoded permitted s :
  reachable_by permitted s ->
  forall k vk, PyDict.get k (public_keys s) = Some vk -> VerifyKey_new k = Return vk.
Proof.
  apply (reachable_by_invariant permitted
           (fun s => forall k vk, PyDict.get k (public_keys s) = Some vk ->
                                  VerifyKey_new k = Return vk)).
  - intros b k vk. discriminate.
  - intros s0 k H. rewrite run_add_public_key.
    destruct (negb (do_public_key_auth s0)); [exact H|].
    destruct (negb (PyDict.mem k (public_keys s0))); [|exact H].
    destruct (VerifyKey_new k) as [vk|e] eqn:Hnew; [|exact H]. simpl.
    intros k' vk'. destruct (String.eqb_spec k' k) as [->|Hne].
    + rewrite PyDictFacts.get_set_same. congruence.
    + rewrite PyDictFacts.get_set_other by exact Hne. apply H.
  - intros s0 now k H. rewrite run__add_worker. cbv zeta.
    destruct (consistency_fault k s0); [exact H|].
    destruct (negb (PyList.contains _ (allowed_workers s0))); exact H.
  - intros s0 i b H. rewrite run_set_registration_status.
    destruct (PyList.contains i (allowed_workers s0)); [|exact H].
    destruct (PyDict.get i (registered_workers s0)); exact H.
  - intros s0 k _ H. rewrite run_delete_public_key. simpl.
    destruct (do_public_key_auth s0 && PyDict.mem k (public_keys s0)); [|exact H].
    simpl. intros k' vk'. destruct (String.eqb_spec k' k) as [->|Hne].
    + now rewrite PyDictFacts.get_del_same.
    + rewrite PyDictFacts.get_del_other by exact Hne. apply H.
  - intros s0 i _ H. rewrite run_remove_worker.
    destruct (PyList.contains i (allowed_workers s0)); [|exact H].
    destruct (PyList.remove i (allowed_workers s0)); [|exact H]. simpl.
    destruct (do_public_key_auth s0 && PyDict.mem i (public_keys s0)); [|exact H].
    intros k' vk'. destruct (String.eqb_spec k' i) as [->|Hne].
    + now rewrite PyDictFacts.get_del_same.
    + rewrite PyDictFacts.get_del_other by exact Hne. apply H.
Qed.

(** C5, amended.  (I1) holds in every object reachable by public calls
    among which [delete_public_key] is only applied to key texts that
    are not allowed workers at the time: in safe mode every allowed
    worker then has a record in [public_keys] under its own identity,
    and the record is the verifying key decoded from that text. *)
Theorem I1_while_allowed_keys_are_kept s :
  reachable_by keeps_allowed_keys s ->
  I1 s = true /\
  (do_public_key_auth s = true ->
   forall i, PyList.contains i (allowed_workers s) = true ->
   exists vk, PyDict.get i (public_keys s) = Some vk /\ VerifyKey_new i = Return vk).
Proof.
  intros Hreach. destruct (reachable_keeping_keys_I1 s Hreach) as [_ H1].
  split; [exact H1|]. intros Hauth i Hi.
  rewrite I1_true in H1.
  apply PyListFacts.contains_In, (H1 Hauth), PyDictFacts.mem_get in Hi as [vk Hvk].
  exists vk. split; [exact Hvk|]. eapply reachable_keys_decoded; eauto.
Qed.

Lemma string_length_append (a b : string) :
  String.length (a +++ b) = String.length a + String.length b.
Proof. induction a as [|c a IH]; simpl; [reflexivity | now rewrite IH]. Qed.

Lemma string_append_inj_r (a b t : string) : a +++ t = b +++ t -> a = b.
Proof.
  intros Heq.
  assert (Hlen : String.length a = String.length b).
  { apply (f_equal String.length) in Heq. rewrite !string_length_append in Heq. lia. }
  revert b Heq Hlen. induction a as [|c a IH]; intros [|d b]; simpl; try discriminate.
  - reflexivity.
  - intros [= -> Heq] [= Hlen]. f_equal. apply IH; assumption.
Qed.

(** In unsafe mode a worker whose generated id is new is added. *)
Lemma run_add_worker_unsafe now k s :
  do_public_key_auth s = false ->
  run (add_worker now k) s =
  let worker_id := sha224_hexdigest now +++ "_unauthenticated" in
  if PyList.contains worker_id (allowed_workers s) then (Return (worker_id, false), s)
  else (Return (worker_id, true),
        mkWorkerManager (public_keys s) (PyList.append worker_id (allowed_workers s))
          (PyDict.set worker_id false (registered_workers s)) false).
Proof.
  intros Hauth. rewrite run_add_worker, Hauth, run__add_worker.
  unfold consistency_fault. rewrite Hauth. simpl.
  destruct (PyList.contains _ (allowed_workers s)); reflexivity.
Qed.

(** Two calls whose clock readings hash differently give two distinct
    identities, both allowed, when the first was new. *)
Lemma add_worker_unsafe_distinct_clock now1 now2 k s :
  do_public_key_auth s = false ->
  sha224_hexdigest now1 <> sha224_hexdigest now2 ->
  let id1 := sha224_hexdigest now1 +++ "_unauthenticated" in
  let id2 := sha224_hexdigest now2 +++ "_unauthenticated" in
  PyList.contains id1 (allowed_workers s) = false ->
  PyList.contains id2 (allowed_workers s) = false ->
  exists s1 s2,
    run (add_worker now1 k) s = (Return (id1, true), s1) /\
    run (add_worker now2 k) s1 = (Return (id2, true), s2) /\
    id1 <> id2 /\
    PyList.contains id1 (allowed_workers s2) = true /\
    PyList.contains id2 (allowed_workers s2) = true.
Proof.
  intros Hauth Hsha id1 id2 H1 H2.
  assert (Hne : id1 <> id2).
  { unfold id1, id2. intros Heq. apply Hsha. eapply string_append_inj_r. exact Heq. }
  rewrite (run_add_worker_unsafe now1 k s Hauth). cbv zeta. fold id1. rewrite H1.
  eexists. eexists. split; [reflexivity|].
  rewrite run_add_worker_unsafe by reflexivity. cbv zeta. fold id2. simpl.
  rewrite PyListFacts.contains_append, H2. simpl.
  destruct (String.eqb_spec id2 id1) as [Heq|_]; [congruence|].
  split; [reflexivity|]. split; [exact Hne|]. simpl.
  rewrite !PyListFacts.contains_append, !String.eqb_refl, !orb_true_r. split; reflexivity.
Qed.

(** C6.  In unsafe mode [authenticate_worker] returns
    [(True, NO_AUTHENTICATION)] for all arguments.  [add_worker] derives
    the identity from the clock reading alone: two calls that read the
    same clock value produce the same identity, and the second of them
    returns [(worker_id, False)] and adds nothing. *)
Theorem add_worker_unsafe_same_clock s now k k' :
  do_public_key_auth s = false ->
  (forall key sg,
     run (authenticate_worker key sg) s = (Return (true, NO_AUTHENTICATION), s)) /\
  let worker_id := sha224_hexdigest now +++ "_unauthenticated" in
  exists s1,
    run (add_worker now k) s =
    (Return (worker_id, negb (PyList.contains worker_id (allowed_workers s))), s1) /\
    PyList.contains worker_id (allowed_workers s1) = true /\
    run (add_worker now k') s1 = (Return (worker_id, false), s1).
Proof.
  intros Hauth. split.
  - intros key sg. now rewrite run_authenticate_worker, Hauth.
  - cbv zeta. rewrite (run_add_worker_unsafe now k s Hauth). cbv zeta.
    destruct (PyList.contains _ (allowed_workers s)) eqn:Hal; simpl.
    + exists s. split; [reflexivity|]. split; [exact Hal|].
      rewrite (run_add_worker_unsafe now k' s Hauth). cbv zeta. now rewrite Hal.
    + eexists. split; [reflexivity|]. simpl.
      rewrite PyListFacts.contains_append, String.eqb_refl, orb_true_r.
      split; [reflexivity|].
      rewrite run_add_worker_unsafe by reflexivity. cbv zeta. simpl.
      now rewrite PyListFacts.contains_append, String.eqb_refl, orb_true_r.
Qed.

(** [add_worker] on a reachable object in safe mode, for a key text
    that [VerifyKey] accepts, whether or not the worker is allowed
    already: it returns the key text as the identity, with True exactly
    when the worker was not allowed before (so False for a key that the
    constructor loaded); [is_worker_allowed] is then True; a further
    [add_worker] returns [(public_key_str, False)] and changes nothing,
    and the worker occurs exactly once in [allowed_workers]. *)
Theorem add_worker_safe_mode s now now' k vk :
  reachable s ->
  do_public_key_auth s = true ->
  VerifyKey_new k = Return vk ->
  exists s1,
    run (add_worker now k) s =
    (Return (k, negb (PyList.contains k (allowed_workers s))), s1) /\
    run (is_worker_allowed k) s1 = (Return true, s1) /\
    run (add_worker now' k) s1 = (Return (k, false), s1) /\
    PyList.count k (allowed_workers s1) = 1.
Proof.
  intros Hreach Hauth Hnew. apply reachable_by_consistent in Hreach as [Hnd Hst].
  assert (Hstored : forall s0,
    do_public_key_auth s0 = true -> PyDict.mem k (public_keys s0) = true ->
    NoDup (allowed_workers s0) ->
    exists s1,
      run (_add_worker now k) s0 =
      (Return (k, negb (PyList.contains k (allowed_workers s0))), s1) /\
      run (is_worker_allowed k) s1 = (Return true, s1) /\
      run (add_worker now' k) s1 = (Return (k, false), s1) /\
      PyList.count k (allowed_workers s1) = 1).
  { intros s0 Hauth0 Hk Hnd0. rewrite (run__add_worker_stored now k s0 Hauth0 Hk).
    destruct (PyList.contains k (allowed_workers s0)) eqn:Hal; simpl.
    - exists s0. split; [reflexivity|]. rewrite run_is_worker_allowed, Hal.
      split; [reflexivity|].
      rewrite (run_add_worker_stored now' k s0 Hauth0 Hk), Hal.
      split; [reflexivity|]. now apply PyListFacts.count_NoDup.
    - eexists. split; [reflexivity|]. rewrite run_is_worker_allowed. simpl.
      rewrite PyListFacts.contains_append, String.eqb_refl, orb_true_r.
      split; [reflexivity|].
      rewrite run_add_worker_stored by (simpl; auto). simpl.
      rewrite PyListFacts.contains_append, String.eqb_refl, orb_true_r.
      split; [reflexivity|].
      rewrite PyListFacts.count_append, String.eqb_refl, (PyListFacts.count_notin _ _ Hal).
      reflexivity. }
  rewrite run_add_worker, run_add_public_key, Hauth. simpl.
  destruct (PyDict.mem k (public_keys s)) eqn:Hk; simpl.
  - apply Hstored; assumption.
  - rewrite Hnew.
    apply (Hstored (set_public_keys (PyDict.set k vk (public_keys s)) s)); simpl; auto.
    now rewrite PyDictFacts.mem_set, String.eqb_refl.
Qed.

(** C7.  In safe mode, for a key text that [VerifyKey] accepts and that
    is not an allowed worker yet, on any object: [add_worker] returns
    [(public_key_str, True)] and [is_worker_allowed] is then True; a
    second [add_worker] returns [(public_key_str, False)] and leaves
    the object as the first call left it, so [is_worker_allowed] is
    still True and the worker occurs exactly once in
    [allowed_workers]. *)
Theorem add_worker_twice s now now' k vk :
  do_public_key_auth s = true ->
  VerifyKey_new k = Return vk ->
  PyList.contains k (allowed_workers s) = false ->
  exists s1,
    run (add_worker now k) s = (Return (k, true), s1) /\
    run (is_worker_allowed k) s1 = (Return true, s1) /\
    run (add_worker now' k) s1 = (Return (k, false), s1) /\
    run (is_worker_allowed k)
        (state_after (add_worker now' k s1)) = (Return true, s1) /\
    PyList.count k (allowed_workers s1) = 1.
Proof.
  intros Hauth Hnew Hal.
  assert (Hstored : forall s0,
    do_public_key_auth s0 = true -> PyDict.mem k (public_keys s0) = true ->
    allowed_workers s0 = allowed_workers s ->
    exists s1,
      run (_add_worker now k) s0 = (Return (k, true), s1) /\
      run (is_worker_allowed k) s1 = (Return true, s1) /\
      run (add_worker now' k) s1 = (Return (k, false), s1) /\
      run (is_worker_allowed k)
          (state_after (add_worker now' k s1)) = (Return true, s1) /\
      PyList.count k (allowed_workers s1) = 1).
  { intros s0 Hauth0 Hk Hsame.
    rewrite (run__add_worker_stored now k s0 Hauth0 Hk), Hsame, Hal.
    eexists. split; [reflexivity|]. rewrite state_after_run, run_is_worker_allowed.
    simpl allowed_workers.
    rewrite PyListFacts.contains_append, String.eqb_refl, orb_true_r.
    split; [reflexivity|].
    rewrite run_add_worker_stored by (simpl; auto). simpl allowed_workers.
    rewrite PyListFacts.contains_append, String.eqb_refl, orb_true_r.
    split; [reflexivity|]. simpl snd. rewrite run_is_worker_allowed.
    simpl allowed_workers.
    rewrite PyListFacts.contains_append, String.eqb_refl, orb_true_r.
    split; [reflexivity|].
    rewrite PyListFacts.count_append, String.eqb_refl, (PyListFacts.count_notin _ _ Hal).
    reflexivity. }
  rewrite run_add_worker, run_add_public_key, Hauth. simpl.
  destruct (PyDict.mem k (public_keys s)) eqn:Hk; simpl.
  - apply Hstored; auto.
  - rewrite Hnew.
    apply (Hstored (set_public_keys (PyDict.set k vk (public_keys s)) s)); simpl; auto.
    now rewrite PyDictFacts.mem_set, String.eqb_refl.
Qed.

(** ** The key store *)

(** [add_public_key] never raises.  It returns True in unsafe mode, for
    a key text that is already stored and for one that [VerifyKey]
    accepts, and False otherwise; on False the object is unchanged, on
    True in safe mode the key is stored; the records of the other keys
    are kept, the workers are not touched, and repeating the call gives
    the same answer and changes nothing. *)
Theorem add_public_key_outcome k s :
  let ok :=
    negb (do_public_key_auth s) || PyDict.mem k (public_keys s) || key_accepted k in
  exists s1,
    run (add_public_key k) s = (Return ok, s1) /\
    (ok = false -> s1 = s) /\
    (do_public_key_auth s = true -> ok = true ->
     PyDict.mem k (public_keys s1) = true) /\
    (forall k', PyDict.mem k' (public_keys s) = true ->
                PyDict.get k' (public_keys s1) = PyDict.get k' (public_keys s)) /\
    allowed_workers s1 = allowed_workers s /\
    registered_workers s1 = registered_workers s /\
    run (add_public_key k) s1 = (Return ok, s1).
Proof.
  cbv zeta. rewrite run_add_public_key. unfold key_accepted.
  destruct (do_public_key_auth s) eqn:Hauth; simpl.
  - destruct (PyDict.mem k (public_keys s)) eqn:Hk; simpl.
    + exists s. rewrite run_add_public_key, Hauth, Hk. simpl. repeat split; auto.
    + destruct (VerifyKey_new k) as [vk|e] eqn:Hnew.
      * eexists. split; [reflexivity|]. simpl.
        rewrite run_add_public_key. simpl.
        rewrite PyDictFacts.mem_set, String.eqb_refl, Hauth. simpl.
        repeat split; try discriminate; auto.
        intros k' Hk'. apply PyDictFacts.get_set_other. intros ->. congruence.
      * exists s. rewrite run_add_public_key, Hauth, Hk, Hnew. simpl.
        repeat split; auto; discriminate.
  - exists s. rewrite run_add_public_key, Hauth. simpl. repeat split; auto; discriminate.
Qed.

(** [delete_public_key] never raises and always returns True, whether
    or not the key was stored.  In safe mode the key is not stored
    afterwards; the records of the other keys are kept, the workers are
    not touched, and repeating the call changes nothing. *)
Theorem delete_public_key_outcome k s :
  exists s1,
    run (delete_public_key k) s = (Return true, s1) /\
    (do_public_key_auth s = true -> PyDict.get k (public_keys s1) = None) /\
    (forall k', k' <> k ->
                PyDict.get k' (public_keys s1) = PyDict.get k' (public_keys s)) /\
    allowed_workers s1 = allowed_workers s /\
    registered_workers s1 = registered_workers s /\
    run (delete_public_key k) s1 = (Return true, s1).
Proof.
  rewrite run_delete_public_key.
  destruct (do_public_key_auth s) eqn:Hauth; simpl.
  - destruct (PyDict.mem k (public_keys s)) eqn:Hk.
    + eexists. split; [reflexivity|]. rewrite run_delete_public_key. simpl.
      rewrite PyDictFacts.mem_del, String.eqb_refl, Hauth. simpl.
      repeat split.
      * intros _. apply PyDictFacts.get_del_same.
      * intros k' Hne. now apply PyDictFacts.get_del_other.
    + exists s. rewrite run_delete_public_key, Hauth, Hk. simpl. repeat split; auto.
      intros _. unfold PyDict.mem in Hk.
      destruct (PyDict.get k (public_keys s)); [discriminate | reflexivity].
  - exists s. rewrite run_delete_public_key, Hauth. simpl. repeat split; auto.
    discriminate.
Qed.

(** Adding a key that was not stored and deleting it again gives back
    the object exactly as it was, in either mode and whether or not
    [VerifyKey] accepted the key. *)
Theorem add_then_delete_public_key k s :
  PyDict.mem k (public_keys s) = false ->
  exec (Delete_public_key k) (exec (Add_public_key k) s) = s.
Proof.
  intros Hk. unfold exec. rewrite !state_after_run, run_add_public_key.
  assert (Hget : PyDict.get k (public_keys s) = None).
  { unfold PyDict.mem in Hk. destruct (PyDict.get k (public_keys s)); congruence. }
  destruct s as [pk al rg [|]]; simpl in *.
  - rewrite Hk. simpl. destruct (VerifyKey_new k) as [vk|e]; simpl.
    + rewrite run_delete_public_key. simpl.
      rewrite PyDictFacts.mem_set, String.eqb_refl. simpl.
      unfold set_public_keys. simpl. now rewrite PyDictFacts.del_set_absent.
    + rewrite run_delete_public_key. simpl. now rewrite Hk.
  - reflexivity.
Qed.

(** ** The mode and the allowed list *)

(** The object a construction returns has [do_public_key_auth] equal to
    [server_mode_safe], and no public call changes it afterwards. *)
Theorem mode_is_fixed_at_construction :
  (forall now server_mode_safe key_list_file s l,
     __init__ now server_mode_safe key_list_file = (Return s, l) ->
     do_public_key_auth s = server_mode_safe) /\
  (forall c s, do_public_key_auth (exec c s) = do_public_key_auth s).
Proof.
  split; [|apply exec_do_public_key_auth].
  intros now safe file s l. unfold __init__.
  destruct safe; simpl; destruct file as [path|]; try discriminate;
    try (intros [= <- _]; reflexivity).
  unfold bind, lift. destruct (read_splitlines path) as [keys|e]; [|discriminate].
  assert (H : do_public_key_auth (snd (run (load_keys now keys) (new_object true))) = true).
  { apply (load_keys_invariant (fun s => do_public_key_auth s = true) now keys);
      [| |reflexivity].
    - intros s0 k H0. rewrite <- H0.
      exact (exec_do_public_key_auth (Add_public_key k) s0).
    - intros s0 now0 k H0. rewrite <- H0. rewrite run__add_worker. cbv zeta.
      destruct (consistency_fault k s0); [reflexivity|].
      destruct (negb (PyList.contains _ (allowed_workers s0))); reflexivity. }
  unfold run in H.
  destruct (load_keys now keys (new_object true)) as [[[u|e] s1] l1]; simpl in *.
  - intros [= <- _]. exact H.
  - discriminate.
Qed.

(** In a reachable object no worker occurs twice in [allowed_workers]:
    [allowed_workers.count(i)] is 1 for an allowed worker and 0
    otherwise, so the single [allowed_workers.remove] of
    [remove_worker] removes the worker completely. *)
Theorem allowed_workers_without_repetition s :
  reachable s ->
  forall i,
    PyList.count i (allowed_workers s) =
    if PyList.contains i (allowed_workers s) then 1 else 0.
Proof.
  intros Hreach i. apply reachable_by_consistent in Hreach as [Hnd _].
  destruct (PyList.contains i (allowed_workers s)) eqn:Hi.
  - now apply PyListFacts.count_NoDup.
  - now apply PyListFacts.count_notin.
Qed.

(** [authenticate_worker] leaves the object as it was, whether it
    returns or raises; [generate_id_for_worker], [get_keys],
    [get_worker_list], [is_worker_allowed] and [is_worker_registered]
    return without raising, on any object, and leave it as it was (the
    lookup in [is_worker_registered] is guarded by the membership
    test). *)
Theorem queries_leave_the_object_alone s :
  (forall k sg, state_after (authenticate_worker k sg s) = s) /\
  (forall now k, exists id, run (generate_id_for_worker now k) s = (Return id, s)) /\
  (exists ks, run get_keys s = (Return ks, s)) /\
  (exists rows, run get_worker_list s = (Return rows, s)) /\
  (forall i, exists b, run (is_worker_allowed i) s = (Return b, s)) /\
  (forall i, exists b, run (is_worker_registered i) s = (Return b, s)).
Proof.
  repeat split.
  - intros k sg. rewrite state_after_run, run_authenticate_worker.
    destruct (negb (do_public_key_auth s)); [reflexivity|].
    destruct (PyDict.get k (public_keys s)) as [vk|]; [|reflexivity].
    destruct (VerifyKey_verify vk sg) as [[]|e]; [reflexivity|].
    destruct (is_BadSignatureError e); reflexivity.
  - intros now k. rewrite run_generate_id_for_worker. eauto.
  - eexists. reflexivity.
  - rewrite run_get_worker_list. eauto.
  - intros i. rewrite run_is_worker_allowed. eauto.
  - intros i. rewrite run_is_worker_registered. eauto.
Qed.

(** The key texts of [public_keys] and the identities of
    [registered_workers] are pairwise distinct in a reachable object. *)
Lemma reachable_by_keys_NoDup permitted s :
  reachable_by permitted s ->
  NoDup (PyDict.keys (public_keys s)) /\ NoDup (PyDict.keys (registered_workers s)).
Proof.
  apply (reachable_by_invariant permitted
           (fun s => NoDup (PyDict.keys (public_keys s)) /\
                     NoDup (PyDict.keys (registered_workers s)))).
  - intros b. split; constructor.
  - intros s0 k [Hp Hr]. rewrite run_add_public_key.
    destruct (negb (do_public_key_auth s0)); [auto|].
    destruct (negb (PyDict.mem k (public_keys s0))); [|auto].
    destruct (VerifyKey_new k); [|auto]. simpl.
    split; [now apply PyDictFacts.keys_set_NoDup | exact Hr].
  - intros s0 now k [Hp Hr]. rewrite run__add_worker. cbv zeta.
    destruct (consistency_fault k s0); [auto|].
    destruct (negb (PyList.contains _ (allowed_workers s0))); [|auto]. simpl.
    split; [exact Hp | now apply PyDictFacts.keys_set_NoDup].
  - intros s0 i b [Hp Hr]. rewrite run_set_registration_status.
    destruct (PyList.contains i (allowed_workers s0)); [|auto].
    destruct (PyDict.get i (registered_workers s0)); [|auto]. simpl.
    split; [exact Hp | now apply PyDictFacts.keys_set_NoDup].
  - intros s0 k _ [Hp Hr]. rewrite run_delete_public_key. simpl.
    destruct (do_public_key_auth s0 && PyDict.mem k (public_keys s0)); [|auto]. simpl.
    split; [now apply PyDictFacts.keys_del_NoDup | exact Hr].
  - intros s0 i _ [Hp Hr]. rewrite run_remove_worker.
    destruct (PyList.contains i (allowed_workers s0)); [|auto].
    destruct (PyList.remove i (allowed_workers s0)); [|auto]. simpl.
    split; [|exact Hr].
    destruct (do_public_key_auth s0 && PyDict.mem i (public_keys s0)); [|exact Hp].
    now apply PyDictFacts.keys_del_NoDup.
Qed.

(** ** Registration status *)

(** [set_registration_status] on a reachable object: for an allowed
    worker it returns [(worker_id, True)] and [is_worker_registered]
    then answers the value just set; for any other worker it returns
    [(INVALID_WORKER, False)] and changes nothing.  In both cases the
    status of every other worker, the allowed list, the key store and
    the order of [registered_workers] stay as they were. *)
Theorem set_registration_status_outcome s i b :
  reachable s ->
  exists s1,
    run (set_registration_status i b) s =
      (Return (if PyList.contains i (allowed_workers s)
               then (i, true) else (INVALID_WORKER, false)), s1) /\
    (PyList.contains i (allowed_workers s) = true ->
     run (is_worker_registered i) s1 = (Return b, s1)) /\
    (PyList.contains i (allowed_workers s) = false -> s1 = s) /\
    (forall j, j <> i ->
       PyDict.get j (registered_workers s1) = PyDict.get j (registered_workers s)) /\
    allowed_workers s1 = allowed_workers s /\
    public_keys s1 = public_keys s /\
    PyDict.keys (registered_workers s1) = PyDict.keys (registered_workers s).
Proof.
  intros Hreach. apply reachable_by_consistent in Hreach as [Hnd Hst].
  rewrite run_set_registration_status.
  destruct (PyList.contains i (allowed_workers s)) eqn:Hi.
  - pose proof (Hst i (proj1 (PyListFacts.contains_In _ _) Hi)) as Hmem.
    destruct (proj1 (PyDictFacts.mem_get _ _) Hmem) as [old Hold]. rewrite Hold.
    eexists. split; [reflexivity|]. simpl. repeat split.
    + intros _. rewrite run_is_worker_registered. simpl.
      now rewrite PyDictFacts.get_set_same.
    + discriminate.
    + intros j Hne. now apply PyDictFacts.get_set_other.
    + now apply PyDictFacts.keys_set_present.
  - exists s. repeat split; auto. discriminate.
Qed.

(** As long as [remove_worker] is not called, (I2) holds: every key of
    [registered_workers] is an allowed worker, so a worker reported by
    [is_worker_registered] is also reported by [is_worker_allowed]. *)
Theorem registered_workers_are_allowed s :
  reachable_by never_removes s ->
  I2 s = true /\
  forall i,
    run (is_worker_registered i) s = (Return true, s) ->
    run (is_worker_allowed i) s = (Return true, s).
Proof.
  intros Hreach. pose proof (reachable_without_remove_I2 s Hreach) as H2.
  split; [exact H2|]. intros i. rewrite run_is_worker_registered, run_is_worker_allowed.
  rewrite I2_true in H2. specialize (H2 i). unfold PyDict.mem in H2.
  destruct (PyDict.get i (registered_workers s)) as [v|]; [|discriminate].
  intros _. f_equal. f_equal. apply PyListFacts.contains_In, H2. reflexivity.
Qed.

Lemma _add_worker_returns_True now k s id s1 :
  run (_add_worker now k) s = (Return (id, true), s1) ->
  PyList.contains id (allowed_workers s) = false /\
  allowed_workers s1 = PyList.append id (allowed_workers s) /\
  registered_workers s1 = PyDict.set id false (registered_workers s) /\
  public_keys s1 = public_keys s.
Proof.
  rewrite run__add_worker. cbv zeta.
  destruct (consistency_fault k s); [discriminate|].
  destruct (PyList.contains _ (allowed_workers s)) eqn:Hc; simpl; [discriminate|].
  intros [= <- <-]. simpl. auto.
Qed.

(** Whenever [add_worker] returns [(worker_id, True)], on any object,
    the worker was not allowed before, is the last element of
    [allowed_workers] now, and [is_worker_registered] answers False for
    it, also when a status was left over from an earlier removal. *)
Theorem added_worker_is_unregistered s now k id s1 :
  run (add_worker now k) s = (Return (id, true), s1) ->
  PyList.contains id (allowed_workers s) = false /\
  allowed_workers s1 = allowed_workers s ++ [id] /\
  run (is_worker_allowed id) s1 = (Return true, s1) /\
  run (is_worker_registered id) s1 = (Return false, s1).
Proof.
  intros Hrun.
  assert (H : exists s0, allowed_workers s0 = allowed_workers s /\
                         run (_add_worker now k) s0 = (Return (id, true), s1)).
  { revert Hrun. rewrite run_add_worker.
    destruct (do_public_key_auth s) eqn:Hauth; [|eauto].
    rewrite run_add_public_key, Hauth. simpl.
    destruct (negb (PyDict.mem k (public_keys s))); [|eauto].
    destruct (VerifyKey_new k) as [vk|e]; [|discriminate].
    intros H. eexists. split; [|exact H]. reflexivity. }
  destruct H as (s0 & Hal & Hadd).
  apply _add_worker_returns_True in Hadd as (Hc & Hal1 & Hrg1 & _).
  rewrite Hal in *. rewrite run_is_worker_allowed, run_is_worker_registered, Hal1, Hrg1.
  rewrite PyListFacts.contains_append, String.eqb_refl, orb_true_r.
  rewrite PyDictFacts.get_set_same. auto.
Qed.

(** In safe mode a key text that is not stored and that [VerifyKey]
    does not accept cannot become a worker: [add_worker] returns
    [(INVALID_WORKER, False)], [authenticate_and_add_worker] does so for
    every signed phrase, and both leave the object as it was. *)
Theorem invalid_key_is_not_added s now k :
  do_public_key_auth s = true ->
  PyDict.mem k (public_keys s) = false ->
  key_accepted k = false ->
  run (add_worker now k) s = (Return (INVALID_WORKER, false), s) /\
  forall sg,
    run (authenticate_and_add_worker now k sg) s = (Return (INVALID_WORKER, false), s).
Proof.
  intros Hauth Hk Hacc. unfold key_accepted in Hacc. split.
  - rewrite run_add_worker, run_add_public_key, Hauth, Hk. simpl.
    destruct (VerifyKey_new k); [discriminate | reflexivity].
  - intros sg. rewrite run_authenticate_and_add_worker, run_authenticate_worker, Hauth.
    simpl. unfold PyDict.mem in Hk.
    destruct (PyDict.get k (public_keys s)); [discriminate | reflexivity].
Qed.

Lemma reachable_identities s :
  reachable s ->
  forall i,
    In i (allowed_workers s) ->
    if do_public_key_auth s then key_accepted i = true
    else exists now, i = sha224_hexdigest now +++ "_unauthenticated".
Proof.
  intros Hreach.
  pose (shape := fun s i =>
          if do_public_key_auth s then key_accepted i = true
          else exists now, i = sha224_hexdigest now +++ "_unauthenticated").
  pose (decoded := fun s =>
          forall k vk, PyDict.get k (public_keys s) = Some vk ->
                       VerifyKey_new k = Return vk).
  change (forall i, In i (allowed_workers s) -> shape s i).
  cut (decoded s /\ forall i, In i (allowed_workers s) -> shape s i); [tauto|].
  revert s Hreach.
  apply (reachable_by_invariant any_call
           (fun s => decoded s /\ forall i, In i (allowed_workers s) -> shape s i));
    unfold shape, decoded.
  - intros b. split; [discriminate | intros i []].
  - intros s0 k [Hd Hs]. rewrite run_add_public_key.
    destruct (negb (do_public_key_auth s0)); [auto|].
    destruct (negb (PyDict.mem k (public_keys s0))); [|auto].
    destruct (VerifyKey_new k) as [vk|e] eqn:Hnew; [|auto]. simpl.
    split; [|exact Hs].
    intros k' vk'. destruct (String.eqb_spec k' k) as [->|Hne].
    + rewrite PyDictFacts.get_set_same. congruence.
    + rewrite PyDictFacts.get_set_other by exact Hne. apply Hd.
  - intros s0 now k [Hd Hs]. rewrite run__add_worker. cbv zeta.
    unfold consistency_fault, PyDict.mem.
    destruct (do_public_key_auth s0) eqn:Hauth; simpl.
    + destruct (PyDict.get k (public_keys s0)) as [vk|] eqn:Hget; simpl;
        [|rewrite Hauth; auto].
      destruct (PyList.contains k (allowed_workers s0)); simpl;
        [rewrite Hauth; auto|].
      split; [exact Hd|]. intros i Hi. unfold PyList.append in Hi.
      apply in_app_iff in Hi as [Hi|[<-|[]]].
      * exact (Hs i Hi).
      * unfold key_accepted. now rewrite (Hd k vk Hget).
    + destruct (PyList.contains _ (allowed_workers s0)); simpl;
        [rewrite Hauth; auto|].
      split; [exact Hd|]. intros i Hi. unfold PyList.append in Hi.
      apply in_app_iff in Hi as [Hi|[<-|[]]].
      * exact (Hs i Hi).
      * eauto.
  - intros s0 i b [Hd Hs]. rewrite run_set_registration_status.
    destruct (PyList.contains i (allowed_workers s0)); [|auto].
    destruct (PyDict.get i (registered_workers s0)); auto.
  - intros s0 k _ [Hd Hs]. rewrite run_delete_public_key. simpl.
    destruct (do_public_key_auth s0 && PyDict.mem k (public_keys s0)); [|auto].
    simpl. split; [|exact Hs].
    intros k' vk'. destruct (String.eqb_spec k' k) as [->|Hne].
    + now rewrite PyDictFacts.get_del_same.
    + rewrite PyDictFacts.get_del_other by exact Hne. apply Hd.
  - intros s0 i _ [Hd Hs]. rewrite run_remove_worker.
    destruct (PyList.contains i (allowed_workers s0)); [|auto].
    destruct (PyList.remove i (allowed_workers s0)) as [l|] eqn:Hl; [|auto]. simpl.
    split.
    + destruct (do_public_key_auth s0 && PyDict.mem i (public_keys s0)); [|exact Hd].
      intros k' vk'. destruct (String.eqb_spec k' i) as [->|Hne].
      * now rewrite PyDictFacts.get_del_same.
      * rewrite PyDictFacts.get_del_other by exact Hne. apply Hd.
    + intros j Hj. apply Hs. eapply PyListFacts.remove_In; eauto.
Qed.

(** The identities of a reachable object: in safe mode every allowed
    worker is a key text that [VerifyKey] accepts; in unsafe mode every
    allowed worker is a digest of a clock reading followed by
    ["_unauthenticated"]. *)
Theorem allowed_worker_identities s :
  reachable s ->
  forall i,
    PyList.contains i (allowed_workers s) = true ->
    if do_public_key_auth s then key_accepted i = true
    else exists now, i = sha224_hexdigest now +++ "_unauthenticated".
Proof.
  intros Hreach i Hi. apply PyListFacts.contains_In in Hi.
  exact (reachable_identities s Hreach i Hi).
Qed.

(** ** Listing keys and workers *)

(** [get_keys] on a reachable object lists the stored key texts, each
    once; every listed key is one that [VerifyKey] accepts, and in
    unsafe mode the list is empty (I3). *)
Theorem get_keys_outcome s :
  reachable s ->
  exists ks,
    run get_keys s = (Return ks, s) /\
    NoDup ks /\
    (forall k, In k ks <-> PyDict.mem k (public_keys s) = true) /\
    (forall k, In k ks -> key_accepted k = true) /\
    (do_public_key_auth s = false -> ks = []).
Proof.
  intros Hreach. exists (PyDict.keys (public_keys s)).
  split; [reflexivity|].
  split; [apply (reachable_by_keys_NoDup _ s Hreach)|].
  split; [intros k; symmetry; apply PyDictFacts.mem_keys|].
  split.
  - intros k Hk. apply PyDictFacts.mem_keys, PyDictFacts.mem_get in Hk as [vk Hvk].
    unfold key_accepted. now rewrite (reachable_keys_decoded _ s Hreach k vk Hvk).
  - intros Hauth. pose proof (reachable_I3 _ s Hreach) as H3.
    rewrite I3_true in H3. now rewrite (H3 Hauth).
Qed.

(** [get_worker_list] on a reachable object has one row per entry of
    [registered_workers], in its order and with pairwise distinct
    identities; every allowed worker has a row, which carries the
    status that [is_worker_registered] reports; and when the two
    constants naming the fields differ, a row gives back the identity
    and the status under them. *)
Theorem get_worker_list_outcome s :
  reachable s ->
  exists rows,
    run get_worker_list s = (Return rows, s) /\
    rows = map (fun item => worker_row (fst item) (snd item)) (registered_workers s) /\
    NoDup (PyDict.keys (registered_workers s)) /\
    (forall i, PyList.contains i (allowed_workers s) = true ->
       exists b, In (worker_row i b) rows /\
                 run (is_worker_registered i) s = (Return b, s)) /\
    (WORKER_ID_KEY <> REGISTRATION_STATUS_KEY ->
     forall i b,
       PyDict.get WORKER_ID_KEY (worker_row i b) = Some (PyStr i) /\
       PyDict.get REGISTRATION_STATUS_KEY (worker_row i b) = Some (PyBool b)).
Proof.
  intros Hreach. eexists. split; [apply run_get_worker_list|].
  split; [reflexivity|].
  split; [apply (reachable_by_keys_NoDup _ s Hreach)|].
  split.
  - intros i Hi. apply reachable_by_consistent in Hreach as [_ Hst].
    apply PyListFacts.contains_In, Hst, PyDictFacts.mem_get in Hi as [b Hb].
    exists b. rewrite run_is_worker_registered, Hb. split; [|reflexivity].
    apply PyDictFacts.get_In in Hb.
    apply (in_map (fun item => worker_row (fst item) (snd item))) in Hb. exact Hb.
  - intros Hne i b. unfold worker_row. split.
    + rewrite PyDictFacts.get_set_other by exact Hne. apply PyDictFacts.get_set_same.
    + apply PyDictFacts.get_set_same.
Qed.

(** ** Removing workers *)

(** In safe mode, once [remove_worker] has removed an allowed worker its
    key is no longer stored, so on the resulting object
    [authenticate_worker] answers [(False, AUTHENTICATED)] for every
    signed message and [authenticate_and_add_worker] answers
    [(INVALID_WORKER, False)] and changes nothing: the worker cannot
    register again by itself. *)
Theorem removed_worker_cannot_authenticate s i :
  do_public_key_auth s = true ->
  PyList.contains i (allowed_workers s) = true ->
  exists s1,
    run (remove_worker i) s = (Return (i, true), s1) /\
    PyDict.get i (public_keys s1) = None /\
    forall now sg,
      run (authenticate_worker i sg) s1 = (Return (false, AUTHENTICATED), s1) /\
      run (authenticate_and_add_worker now i sg) s1 = (Return (INVALID_WORKER, false), s1).
Proof.
  intros Hauth Hi. rewrite run_remove_worker, Hi, Hauth.
  destruct (PyListFacts.remove_Some _ _ Hi) as [l Hl]. rewrite Hl.
  eexists. split; [reflexivity|]. simpl.
  assert (Hget : PyDict.get i (if PyDict.mem i (public_keys s)
                               then PyDict.del i (public_keys s)
                               else public_keys s) = None).
  { destruct (PyDict.mem i (public_keys s)) eqn:Hk.
    - apply PyDictFacts.get_del_same.
    - unfold PyDict.mem in Hk. destruct (PyDict.get i (public_keys s)); congruence. }
  split; [exact Hget|]. intros now sg.
  rewrite run_authenticate_and_add_worker, run_authenticate_worker. simpl.
  rewrite Hget. split; reflexivity.
Qed.

(** [remove_worker] of an allowed worker in a reachable object deletes
    exactly that worker from [allowed_workers], keeping the others in
    their order; for every other worker, being allowed, the stored key
    and the registration status are what they were. *)
Theorem remove_worker_frame s i :
  reachable s ->
  PyList.contains i (allowed_workers s) = true ->
  allowed_workers (exec (Remove_worker i) s) =
    filter (fun j => negb (String.eqb i j)) (allowed_workers s) /\
  forall j, j <> i ->
    PyList.contains j (allowed_workers (exec (Remove_worker i) s)) =
      PyList.contains j (allowed_workers s) /\
    PyDict.get j (public_keys (exec (Remove_worker i) s)) = PyDict.get j (public_keys s) /\
    PyDict.get j (registered_workers (exec (Remove_worker i) s)) =
      PyDict.get j (registered_workers s).
Proof.
  intros Hreach Hi. apply reachable_by_consistent in Hreach as [Hnd _].
  unfold exec. rewrite state_after_run, run_remove_worker, Hi.
  pose proof (PyListFacts.remove_filter _ _ Hnd Hi) as Hl. rewrite Hl. simpl.
  split; [reflexivity|]. intros j Hne. repeat split.
  - eapply PyListFacts.remove_contains_other; eauto.
  - destruct (do_public_key_auth s && PyDict.mem i (public_keys s)); [|reflexivity].
    now apply PyDictFacts.get_del_other.
Qed.

(** Removing an allowed worker of a reachable safe-mode object and
    adding its key text again: [add_worker] returns [(worker_id, True)],
    the key is stored again, the worker is allowed and its registration
    status starts at False whatever it was before the removal. *)
Theorem remove_then_add_worker s now i :
  reachable s ->
  do_public_key_auth s = true ->
  PyList.contains i (allowed_workers s) = true ->
  exists s2,
    run (add_worker now i) (exec (Remove_worker i) s) = (Return (i, true), s2) /\
    PyDict.mem i (public_keys s2) = true /\
    run (is_worker_allowed i) s2 = (Return true, s2) /\
    run (is_worker_registered i) s2 = (Return false, s2).
Proof.
  intros Hreach Hauth Hi.
  pose proof (reachable_identities s Hreach i (proj1 (PyListFacts.contains_In _ _) Hi))
    as Hacc.
  rewrite Hauth in Hacc. unfold key_accepted in Hacc.
  destruct (VerifyKey_new i) as [vk|e] eqn:Hnew; [|discriminate].
  destruct (exec_remove_worker_allowed s i Hreach Hi) as (Hnot & _ & _).
  pose proof (exec_do_public_key_auth (Remove_worker i) s) as Hauth1.
  rewrite Hauth in Hauth1.
  set (s1 := exec (Remove_worker i) s) in *.
  rewrite run_add_worker, run_add_public_key, Hauth1. simpl.
  assert (Hstep : forall s0,
            do_public_key_auth s0 = true ->
            PyDict.mem i (public_keys s0) = true ->
            allowed_workers s0 = allowed_workers s1 ->
            exists s2,
              run (_add_worker now i) s0 = (Return (i, true), s2) /\
              PyDict.mem i (public_keys s2) = true /\
              run (is_worker_allowed i) s2 = (Return true, s2) /\
              run (is_worker_registered i) s2 = (Return false, s2)).
  { intros s0 Ha Hk Hal. rewrite (run__add_worker_stored now i s0 Ha Hk), Hal, Hnot.
    eexists. split; [reflexivity|]. simpl. split; [exact Hk|].
    rewrite run_is_worker_allowed, run_is_worker_registered. simpl.
    rewrite PyListFacts.contains_append, String.eqb_refl, orb_true_r.
    now rewrite PyDictFacts.get_set_same. }
  destruct (PyDict.mem i (public_keys s1)) eqn:Hk; simpl.
  - apply Hstep; auto.
  - rewrite Hnew. apply (Hstep (set_public_keys (PyDict.set i vk (public_keys s1)) s1));
      simpl; auto.
    now rewrite PyDictFacts.mem_set, String.eqb_refl.
Qed.

(** ** Registering *)

(** In unsafe mode [authenticate_and_add_worker] on a reachable object
    always returns [(worker_id, True)] for the identity derived from
    the clock reading, whatever the key text and the signed phrase, and
    the worker is then allowed and registered; this also holds when the
    identity was allowed before. *)
Theorem authenticate_and_add_worker_unsafe s now k sg :
  reachable s ->
  do_public_key_auth s = false ->
  exists s1,
    run (authenticate_and_add_worker now k sg) s =
      (Return (sha224_hexdigest now +++ "_unauthenticated", true), s1) /\
    run (is_worker_allowed (sha224_hexdigest now +++ "_unauthenticated")) s1 =
      (Return true, s1) /\
    run (is_worker_registered (sha224_hexdigest now +++ "_unauthenticated")) s1 =
      (Return true, s1).
Proof.
  intros Hreach Hauth. apply reachable_by_consistent in Hreach as [Hnd Hst].
  rewrite run_authenticate_and_add_worker, run_authenticate_worker, Hauth. simpl.
  rewrite run__add_worker. unfold consistency_fault. rewrite Hauth. simpl.
  set (id := sha224_hexdigest now +++ "_unauthenticated").
  destruct (PyList.contains id (allowed_workers s)) eqn:Hal; simpl.
  - rewrite run_set_registration_status, Hal.
    pose proof (Hst id (proj1 (PyListFacts.contains_In _ _) Hal)) as Hrg.
    apply PyDictFacts.mem_get in Hrg as [old Hold]. rewrite Hold.
    eexists. split; [reflexivity|].
    rewrite run_is_worker_allowed, run_is_worker_registered. simpl.
    now rewrite Hal, PyDictFacts.get_set_same.
  - rewrite run_set_registration_status. simpl.
    rewrite PyListFacts.contains_append, String.eqb_refl, orb_true_r.
    rewrite PyDictFacts.get_set_same.
    eexists. split; [reflexivity|].
    rewrite run_is_worker_allowed, run_is_worker_registered. simpl.
    rewrite PyListFacts.contains_append, String.eqb_refl, orb_true_r.
    now rewrite PyDictFacts.get_set_same.
Qed.

Lemma authenticate_worker_state k sg s :
  snd (run (authenticate_worker k sg) s) = s.
Proof.
  rewrite run_authenticate_worker.
  destruct (negb (do_public_key_auth s)); [reflexivity|].
  destruct (PyDict.get k (public_keys s)) as [vk|]; [|reflexivity].
  destruct (VerifyKey_verify vk sg) as [[]|e]; [reflexivity|].
  destruct (is_BadSignatureError e); reflexivity.
Qed.

(** The answer of [authenticate_worker] depends on the mode and the key
    store only. *)
Lemma authenticate_worker_depends k sg s s' :
  public_keys s' = public_keys s ->
  do_public_key_auth s' = do_public_key_auth s ->
  fst (run (authenticate_worker k sg) s') = fst (run (authenticate_worker k sg) s).
Proof.
  intros Hpk Hauth. rewrite !run_authenticate_worker, Hpk, Hauth.
  destruct (negb (do_public_key_auth s)); [reflexivity|].
  destruct (PyDict.get k (public_keys s)) as [vk|]; [|reflexivity].
  destruct (VerifyKey_verify vk sg) as [[]|e]; [reflexivity|].
  destruct (is_BadSignatureError e); reflexivity.
Qed.

(** [_add_worker] followed by [set_registration_status(worker_id, True)],
    as [authenticate_and_add_worker] runs them. *)
Lemma add_and_register_again now k s id s1 :
  consistency_fault k s = false ->
  match run (_add_worker now k) s with
  | (Return (worker_id, _), s2) => run (set_registration_status worker_id true) s2
  | (Raise e, s2) => (Raise e, s2)
  end = (Return (id, true), s1) ->
  public_keys s1 = public_keys s /\
  do_public_key_auth s1 = do_public_key_auth s /\
  match run (_add_worker now k) s1 with
  | (Return (worker_id, _), s2) => run (set_registration_status worker_id true) s2
  | (Raise e, s2) => (Raise e, s2)
  end = (Return (id, true), s1).
Proof.
  intros Hfault. rewrite !run__add_worker. cbv zeta. rewrite Hfault.
  unfold consistency_fault in Hfault.
  destruct s as [pk al rg auth]. simpl in *.
  set (w := if auth then k else sha224_hexdigest now +++ "_unauthenticated").
  destruct (PyList.contains w al) eqn:Hw; simpl.
  - rewrite run_set_registration_status. simpl. rewrite Hw.
    destruct (PyDict.get w rg) as [old|]; [|discriminate].
    intros [= <- <-]. simpl. unfold consistency_fault. simpl. rewrite Hfault.
    fold w. rewrite Hw. simpl.
    rewrite run_set_registration_status. simpl.
    rewrite Hw, PyDictFacts.get_set_same. unfold set_registered_workers. simpl.
    now rewrite PyDictFacts.set_set.
  - rewrite run_set_registration_status. simpl.
    rewrite PyListFacts.contains_append, String.eqb_refl, orb_true_r.
    rewrite PyDictFacts.get_set_same.
    intros [= <- <-]. simpl. unfold consistency_fault. simpl. rewrite Hfault.
    fold w. rewrite PyListFacts.contains_append, String.eqb_refl, orb_true_r. simpl.
    rewrite run_set_registration_status. simpl.
    rewrite PyListFacts.contains_append, String.eqb_refl, orb_true_r.
    rewrite PyDictFacts.get_set_same. unfold set_registered_workers. simpl.
    now rewrite PyDictFacts.set_set.
Qed.

(** Registration is idempotent: when [authenticate_and_add_worker]
    returned [(worker_id, True)], the same call on the resulting object
    (with the same clock reading, which matters in unsafe mode only)
    returns [(worker_id, True)] again and leaves that object exactly as
    it is. *)
Theorem authenticate_and_add_worker_again s now k sg id s1 :
  run (authenticate_and_add_worker now k sg) s = (Return (id, true), s1) ->
  run (authenticate_and_add_worker now k sg) s1 = (Return (id, true), s1).
Proof.
  rewrite !run_authenticate_and_add_worker.
  pose proof (authenticate_worker_state k sg s) as Hstate.
  pose proof (authenticate_worker_state k sg s1) as Hstate1.
  destruct (run (authenticate_worker k sg) s) as [[[[|] mode]|e] s0] eqn:Hauth;
    try discriminate.
  simpl in Hstate. subst s0.
  pose proof (consistency_fault_after_authenticate _ _ _ _ _ Hauth) as Hfault.
  intros Hrun.
  destruct (add_and_register_again now k s id s1 Hfault Hrun) as (Hpk & Hmode & Hagain).
  pose proof (authenticate_worker_depends k sg s s1 Hpk Hmode) as Hdep.
  rewrite Hauth in Hdep.
  destruct (run (authenticate_worker k sg) s1) as [r s0]. simpl in *. subst.
  exact Hagain.
Qed.

(** ** Construction from a key list *)

Lemma mem_contains_keys {V} k (d : PyDict.dict V) :
  PyDict.mem k d = PyList.contains k (PyDict.keys d).
Proof.
  unfold PyDict.mem. induction d as [|[k' v'] d IH]; simpl; [reflexivity|].
  destruct (String.eqb k k'); [reflexivity | exact IH].
Qed.

Lemma get_unregistered k al :
  PyList.contains k al = false ->
  PyDict.get k (map (fun i => (i, false)) al) = None.
Proof.
  induction al as [|i al IH]; simpl; [reflexivity|].
  destruct (String.eqb k i); [discriminate | exact IH].
Qed.

(** The loop of [__init__], started on an object in safe mode whose
    key store, allowed list and statuses go together. *)
Lemma load_keys_loaded now keys :
  forall s,
    do_public_key_auth s = true ->
    PyDict.keys (public_keys s) = allowed_workers s ->
    registered_workers s = map (fun i => (i, false)) (allowed_workers s) ->
    (forall k vk, PyDict.get k (public_keys s) = Some vk -> VerifyKey_new k = Return vk) ->
    exists s',
      run (load_keys now keys) s = (Return tt, s') /\
      do_public_key_auth s' = true /\
      PyDict.keys (public_keys s') = allowed_workers s' /\
      registered_workers s' = map (fun i => (i, false)) (allowed_workers s') /\
      (forall k vk, PyDict.get k (public_keys s') = Some vk ->
                    VerifyKey_new k = Return vk) /\
      forall k,
        PyList.contains k (allowed_workers s') =
        PyList.contains k (allowed_workers s) ||
        (existsb (String.eqb k) keys && key_accepted k).
Proof.
  induction keys as [|key rest IH]; intros s Hauth Hkeys Hrg Hdec.
  - exists s. repeat split; auto. intros k. simpl. now rewrite orb_false_r.
  - simpl load_keys. rewrite run_bind, run_add_public_key, Hauth. simpl.
    pose proof (mem_contains_keys key (public_keys s)) as Hmem. rewrite Hkeys in Hmem.
    destruct (PyDict.mem key (public_keys s)) eqn:Hk; simpl.
    + (* the key is stored and allowed already *)
      rewrite !run_bind, (run_add_worker_stored now key s Hauth Hk), <- Hmem.
      change (run (ret tt) s) with (Return tt, s). cbv iota beta.
      destruct (IH s Hauth Hkeys Hrg Hdec) as (s' & Hrun & Ha & Hk' & Hr' & Hd' & Hin).
      exists s'. repeat split; auto. intros k. rewrite Hin.
      destruct (String.eqb_spec k key) as [->|Hne]; simpl; [|reflexivity].
      now rewrite <- Hmem.
    + destruct (VerifyKey_new key) as [vk|e] eqn:Hnew.
      * (* a new key that VerifyKey accepts *)
        set (s1 := set_public_keys (PyDict.set key vk (public_keys s)) s).
        assert (Hk1 : PyDict.mem key (public_keys s1) = true)
          by (simpl; now rewrite PyDictFacts.mem_set, String.eqb_refl).
        rewrite !run_bind, (run_add_worker_stored now key s1 Hauth Hk1).
        simpl allowed_workers. rewrite <- Hmem.
        change (run (ret tt) ?x) with (Return tt, x). cbv iota beta.
        assert (Hget : PyDict.get key (public_keys s) = None).
        { unfold PyDict.mem in Hk. destruct (PyDict.get key (public_keys s)); congruence. }
        match goal with
        | |- context [run (load_keys now rest) ?x] => set (s2 := x)
        end.
        destruct (IH s2) as (s' & Hrun & Ha & Hk' & Hr' & Hd' & Hin).
        -- reflexivity.
        -- simpl. rewrite (PyDictFacts.set_absent _ _ _ Hget). unfold PyDict.keys.
           rewrite map_app. simpl. fold (PyDict.keys (public_keys s)). now rewrite Hkeys.
        -- simpl. rewrite Hrg. unfold PyList.append. rewrite map_app. simpl.
           apply PyDictFacts.set_absent, get_unregistered. now rewrite <- Hmem.
        -- simpl. intros k vk'. destruct (String.eqb_spec k key) as [->|Hne].
           ++ rewrite PyDictFacts.get_set_same. congruence.
           ++ rewrite PyDictFacts.get_set_other by exact Hne. apply Hdec.
        -- exists s'. repeat split; auto. intros k. rewrite Hin. simpl.
           rewrite PyListFacts.contains_append.
           destruct (String.eqb_spec k key) as [->|Hne]; simpl.
           ++ unfold key_accepted. rewrite Hnew. now rewrite !orb_true_r.
           ++ now rewrite orb_false_r.
      * (* a key that VerifyKey rejects *)
        rewrite run_bind. change (run (logger ?l ?m) s) with (Return tt, s).
        cbv iota beta.
        destruct (IH s Hauth Hkeys Hrg Hdec) as (s' & Hrun & Ha & Hk' & Hr' & Hd' & Hin).
        exists s'. repeat split; auto. intros k. rewrite Hin.
        destruct (String.eqb_spec k key) as [->|Hne]; simpl; [|reflexivity].
        unfold key_accepted. rewrite Hnew.
        now rewrite ?andb_false_r.
Qed.

(** [__init__] in safe mode with a key list file.  If the file cannot
    be read, the exception leaves the constructor.  Otherwise the
    construction succeeds whatever the lines are: a line becomes an
    allowed worker exactly when [VerifyKey] accepts it, lines that are
    not valid keys are skipped, the stored keys are the allowed workers
    in the same order, and every worker starts unregistered. *)
Theorem init_from_key_list now path :
  (forall e,
     read_splitlines path = Raise e ->
     __init__ now true (Some path) = (Raise e, [])) /\
  (forall keys,
     read_splitlines path = Return keys ->
     exists s,
       result_of_init (__init__ now true (Some path)) = Some s /\
       do_public_key_auth s = true /\
       (forall k, PyList.contains k (allowed_workers s) =
                  existsb (String.eqb k) keys && key_accepted k) /\
       PyDict.keys (public_keys s) = allowed_workers s /\
       registered_workers s = map (fun i => (i, false)) (allowed_workers s)).
Proof.
  unfold __init__, result_of_init. simpl. unfold bind, lift. split.
  - intros e ->. reflexivity.
  - intros keys ->.
    destruct (load_keys_loaded now keys (new_object true))
      as (s & Hrun & Ha & Hk & Hr & _ & Hin); try reflexivity; [discriminate|].
    unfold run in Hrun.
    destruct (load_keys now keys (new_object true)) as [[r s0] l]. simpl in Hrun.
    injection Hrun as -> ->. simpl. exists s. repeat split; auto.
Qed.

End ManagerFacts.

(** ** The digit classes of the MNIST worker *)

Module MnistFedAvgWorkerFacts.
Import MnistFedAvgWorker.

(** [digit_classes[args.digit_class]] yields a list exactly for the
    integers from -3 to 2, a negative one selecting the same class as
    the index three higher, and raises IndexError for every other
    integer.  The classes 0, 1 and 2 split the digits 0 to 9: every
    digit belongs to exactly one of them, and they hold nothing else. *)
Theorem digit_classes_partition :
  (forall i : Z, (exists ds, digits i = Some ds) <-> (-3 <= i <= 2)%Z) /\
  (forall i : Z, (-3 <= i < 0)%Z -> digits i = digits (i + 3)) /\
  (forall d : nat, d < 10 ->
     exists c ds,
       (0 <= c <= 2)%Z /\ digits c = Some ds /\ In d ds /\
       forall c' ds', (0 <= c' <= 2)%Z -> digits c' = Some ds' -> In d ds' -> c' = c) /\
  (forall c ds d, digits c = Some ds -> In d ds -> d < 10).
Proof.
  assert (Hcases : forall i : Z, (-3 <= i <= 2)%Z ->
            i = (-3)%Z \/ i = (-2)%Z \/ i = (-1)%Z \/ i = 0%Z \/ i = 1%Z \/ i = 2%Z)
    by (intros; lia).
  assert (Hout : forall i : Z, ~ (-3 <= i <= 2)%Z -> digits i = None).
  { intros i Hi. unfold digits, getitem. simpl length. simpl Z.of_nat.
    destruct (Z.leb_spec 0 i), (Z.ltb_spec i 3); simpl; try lia;
      destruct (Z.leb_spec (-3) i), (Z.ltb_spec i 0); simpl; try lia; reflexivity. }
  assert (Hrange : forall i ds, digits i = Some ds -> (-3 <= i <= 2)%Z).
  { intros i ds Hds.
    destruct (Z_le_dec (-3) i) as [Hlo|Hlo], (Z_le_dec i 2) as [Hhi|Hhi];
      try lia; rewrite Hout in Hds by lia; discriminate. }
  split; [|split; [|split]].
  - intros i. split.
    + intros [ds Hds]. eauto.
    + intros Hi. destruct (Hcases i Hi) as [->|[->|[->|[->|[->| ->]]]]];
        eexists; reflexivity.
  - intros i Hi.
    assert (H : i = (-3)%Z \/ i = (-2)%Z \/ i = (-1)%Z) by lia.
    destruct H as [->|[->| ->]]; reflexivity.
  - intros d Hd.
    assert (Hsel : forall c ds, (0 <= c <= 2)%Z -> digits c = Some ds ->
              (c = 0%Z /\ ds = [0; 1; 2; 3]) \/ (c = 1%Z /\ ds = [4; 5; 6]) \/
              (c = 2%Z /\ ds = [7; 8; 9])).
    { intros c ds Hc Hds.
      assert (H : c = 0%Z \/ c = 1%Z \/ c = 2%Z) by lia.
      destruct H as [->|[->| ->]]; injection Hds as <-; auto. }
    assert (Hpick : forall c ds,
              (0 <= c <= 2)%Z -> digits c = Some ds -> In d ds ->
              exists c ds,
                (0 <= c <= 2)%Z /\ digits c = Some ds /\ In d ds /\
                forall c' ds', (0 <= c' <= 2)%Z -> digits c' = Some ds' ->
                               In d ds' -> c' = c).
    { intros c ds Hc Hds Hin. exists c, ds. repeat split; try assumption; try lia.
      intros c' ds' Hc' Hds' Hin'.
      destruct (Hsel c ds Hc Hds) as [[-> ->]|[[-> ->]|[-> ->]]];
        destruct (Hsel c' ds' Hc' Hds') as [[-> ->]|[[-> ->]|[-> ->]]];
        simpl in Hin, Hin'; solve [reflexivity | exfalso; lia]. }
    do 10 (destruct d as [|d]; [
      first [ solve [apply (Hpick 0%Z [0; 1; 2; 3]); [lia | reflexivity | simpl; tauto]]
            | solve [apply (Hpick 1%Z [4; 5; 6]); [lia | reflexivity | simpl; tauto]]
            | solve [apply (Hpick 2%Z [7; 8; 9]); [lia | reflexivity | simpl; tauto]] ] |]).
    lia.
  - intros c ds d Hds Hin. pose proof (Hrange c ds Hds) as Hc.
    destruct (Hcases c Hc) as [->|[->|[->|[->|[->| ->]]]]];
      injection Hds as <-; simpl in Hin; lia.
Qed.

End MnistFedAvgWorkerFacts.

(** ** The methods run on the reference instance *)

Import Reference.

Lemma init_loaded :
  __init__ "" true (Some key_file) =
  (Return loaded, snd (__init__ "" true (Some key_file))).
Proof. reflexivity. Qed.

Lemma reachable_by_loaded permitted : reachable_by permitted loaded.
Proof. eapply reachable_init. exact init_loaded. Qed.

Lemma reachable_registered : reachable registered.
Proof. apply reachable_call; [apply reachable_by_loaded | exact I]. Qed.

(** The worker [K1] registers, is removed, and is still reported as
    registered. *)
Example removed_worker_still_registered :
  run (is_worker_registered K1) registered = (Return true, registered) /\
  run (remove_worker K1) registered =
    (Return (K1, true), mkWorkerManager [] [] [(K1, true)] true) /\
  run (is_worker_registered K1) (exec (Remove_worker K1) registered) =
    (Return true, mkWorkerManager [] [] [(K1, true)] true) /\
  run get_worker_list (exec (Remove_worker K1) registered) =
    (Return [[("worker_id", PyStr K1); ("registration_status", PyBool true)]],
     mkWorkerManager [] [] [(K1, true)] true).
Proof. repeat split. Qed.

(** A signed message that is not hexadecimal makes [authenticate_worker]
    raise. *)
Example authenticate_worker_raises :
  run (authenticate_worker K1 "zz") loaded =
  (Raise (LibraryError "binascii.Error" "Non-hexadecimal digit found"), loaded).
Proof. reflexivity. Qed.

(** Two [add_worker] calls in unsafe mode with one clock reading. *)
Example add_worker_twice_same_clock :
  run (add_worker tick "samekey") unsafe =
    (Return ("1600000000.0_unauthenticated", true),
     exec (Add_worker tick "samekey") unsafe) /\
  run (add_worker tick "samekey") (exec (Add_worker tick "samekey") unsafe) =
    (Return ("1600000000.0_unauthenticated", false),
     exec (Add_worker tick "samekey") unsafe) /\
  allowed_workers (exec (Add_worker tick "samekey") unsafe) =
    ["1600000000.0_unauthenticated"].
Proof. repeat split. Qed.

Lemma allowed_workers_have_status_witness :
  reachable registered /\
  allowed_have_status registered = true /\
  forall i b,
    PyList.contains i (allowed_workers registered) = true ->
    exists old_status,
      PyDict.get i (registered_workers registered) = Some old_status /\
      run (set_registration_status i b) registered =
      (Return (i, true),
       set_registered_workers (PyDict.set i b (registered_workers registered)) registered).
Proof.
  split.
  - apply reachable_call; [eapply reachable_init; exact init_loaded | exact I].
  - apply (allowed_workers_have_status registered).
    apply reachable_call; [eapply reachable_init; exact init_loaded | exact I].
Defined.

Lemma remove_worker_keeps_registration_entry_witness :
  reachable registered /\
  PyList.contains K1 (allowed_workers registered) = true /\
  exists s1,
    run (remove_worker K1) registered = (Return (K1, true), s1) /\
    run (is_worker_allowed K1) s1 = (Return false, s1) /\
    run (remove_worker K1) s1 = (Return (INVALID_WORKER, false), s1) /\
    registered_workers s1 = registered_workers registered /\
    PyDict.mem K1 (registered_workers s1) = true /\
    fst (run (is_worker_registered K1) s1) = fst (run (is_worker_registered K1) registered).
Proof.
  split; [|split].
  - apply reachable_call; [eapply reachable_init; exact init_loaded | exact I].
  - reflexivity.
  - apply (remove_worker_keeps_registration_entry registered K1).
    + apply reachable_call; [eapply reachable_init; exact init_loaded | exact I].
    + reflexivity.
Defined.

Lemma remove_worker_breaks_I2_witness :
  reachable loaded /\
  PyList.contains K1 (allowed_workers loaded) = true /\
  reachable (exec (Remove_worker K1) loaded) /\
  PyList.contains K1 (allowed_workers (exec (Remove_worker K1) loaded)) = false /\
  I2 (exec (Remove_worker K1) loaded) = false /\
  exists value rows,
    run get_worker_list (exec (Remove_worker K1) loaded) =
      (Return rows, exec (Remove_worker K1) loaded) /\
    In (worker_row K1 value) rows.
Proof.
  split; [|split].
  - eapply reachable_init. exact init_loaded.
  - reflexivity.
  - apply (remove_worker_breaks_I2 loaded K1).
    + eapply reachable_init. exact init_loaded.
    + reflexivity.
Defined.

Lemma authenticate_and_add_worker_registers_witness :
  reachable loaded /\
  do_public_key_auth loaded = true /\
  (exists s1,
     run (authenticate_and_add_worker "" K1 good_signature) loaded =
       (Return (K1, true), s1) /\
     run (is_worker_registered K1) s1 = (Return true, s1)) /\
  run (authenticate_and_add_worker "" K1 bad_signature) registered =
    (Return (INVALID_WORKER, false), registered) /\
  run (authenticate_and_add_worker "" K2 good_signature) registered =
    (Return (INVALID_WORKER, false), registered) /\
  run (authenticate_and_add_worker "" K1 "zz") registered =
    (Raise (LibraryError "binascii.Error" "Non-hexadecimal digit found"), registered).
Proof.
  split; [|split; [|split; [|split; [|split]]]].
  - eapply reachable_init. exact init_loaded.
  - reflexivity.
  - destruct (authenticate_and_add_worker_registers loaded "" K1 good_signature)
      as (Hgood & _ & _).
    + eapply reachable_init. exact init_loaded.
    + reflexivity.
    + eapply Hgood; reflexivity.
  - destruct (authenticate_and_add_worker_registers registered "" K1 bad_signature)
      as (_ & Hbad & _).
    + apply reachable_call; [eapply reachable_init; exact init_loaded | exact I].
    + reflexivity.
    + apply Hbad. right. eexists. split; reflexivity.
  - destruct (authenticate_and_add_worker_registers registered "" K2 good_signature)
      as (_ & Hbad & _).
    + apply reachable_call; [eapply reachable_init; exact init_loaded | exact I].
    + reflexivity.
    + apply Hbad. left. reflexivity.
  - destruct (authenticate_and_add_worker_registers registered "" K1 "zz")
      as (_ & _ & Hraise).
    + apply reachable_call; [eapply reachable_init; exact init_loaded | exact I].
    + reflexivity.
    + eapply Hraise; reflexivity.
Defined.

Lemma authenticate_worker_lets_errors_through_witness :
  do_public_key_auth loaded = true /\
  run (authenticate_worker K1 "zz") loaded =
  (Raise (LibraryError "binascii.Error" "Non-hexadecimal digit found"), loaded).
Proof.
  split; [reflexivity|].
  destruct (authenticate_worker_lets_errors_through loaded K1 "zz" eq_refl)
    as [_ Hstored].
  eapply Hstored; reflexivity.
Defined.

(** C5, as stated, fails: after [delete_public_key(K1)] on the object
    constructed from the key file, which is a public call, [K1] is still
    an allowed worker in safe mode but has no record in [public_keys]. *)
Lemma I1_broken_by_delete_public_key :
  reachable key_deleted /\
  do_public_key_auth key_deleted = true /\
  PyList.contains K1 (allowed_workers key_deleted) = true /\
  PyDict.get K1 (public_keys key_deleted) = None /\
  I1 key_deleted = false.
Proof.
  split.
  - apply reachable_call; [eapply reachable_init; exact init_loaded | exact I].
  - repeat split.
Qed.

Lemma I1_while_allowed_keys_are_kept_witness :
  reachable_by keeps_allowed_keys (exec (Delete_public_key K2) loaded) /\
  I1 (exec (Delete_public_key K2) loaded) = true /\
  (do_public_key_auth (exec (Delete_public_key K2) loaded) = true ->
   forall i,
     PyList.contains i (allowed_workers (exec (Delete_public_key K2) loaded)) = true ->
     exists vk,
       PyDict.get i (public_keys (exec (Delete_public_key K2) loaded)) = Some vk /\
       VerifyKey_new i = Return vk).
Proof.
  split.
  - apply reachable_call; [eapply reachable_init; exact init_loaded|].
    reflexivity.
  - apply (I1_while_allowed_keys_are_kept (exec (Delete_public_key K2) loaded)).
    apply reachable_call; [eapply reachable_init; exact init_loaded|].
    reflexivity.
Defined.

Lemma add_worker_unsafe_same_clock_witness :
  do_public_key_auth unsafe = false /\
  (forall key sg,
     run (authenticate_worker key sg) unsafe = (Return (true, NO_AUTHENTICATION), unsafe)) /\
  exists s1,
    run (add_worker tick "samekey") unsafe =
    (Return (sha224_hexdigest tick +++ "_unauthenticated",
             negb (PyList.contains (sha224_hexdigest tick +++ "_unauthenticated")
                     (allowed_workers unsafe))), s1) /\
    PyList.contains (sha224_hexdigest tick +++ "_unauthenticated")
      (allowed_workers s1) = true /\
    run (add_worker tick "samekey") s1 =
    (Return (sha224_hexdigest tick +++ "_unauthenticated", false), s1).
Proof.
  split; [reflexivity|].
  apply (add_worker_unsafe_same_clock unsafe tick "samekey" "samekey"). reflexivity.
Defined.

Lemma add_worker_safe_mode_witness :
  reachable loaded /\
  do_public_key_auth loaded = true /\
  (exists vk, VerifyKey_new K2 = Return vk) /\
  exists s1,
    run (add_worker "" K2) loaded =
    (Return (K2, negb (PyList.contains K2 (allowed_workers loaded))), s1) /\
    run (is_worker_allowed K2) s1 = (Return true, s1) /\
    run (add_worker "" K2) s1 = (Return (K2, false), s1) /\
    PyList.count K2 (allowed_workers s1) = 1.
Proof.
  split; [eapply reachable_init; exact init_loaded|].
  split; [reflexivity|]. split; [eexists; reflexivity|].
  eapply (add_worker_safe_mode loaded "" "" K2).
  - eapply reachable_init. exact init_loaded.
  - reflexivity.
  - reflexivity.
Defined.

Lemma add_worker_twice_witness :
  do_public_key_auth loaded = true /\
  (exists vk, VerifyKey_new K2 = Return vk) /\
  PyList.contains K2 (allowed_workers loaded) = false /\
  exists s1,
    run (add_worker "" K2) loaded = (Return (K2, true), s1) /\
    run (is_worker_allowed K2) s1 = (Return true, s1) /\
    run (add_worker "" K2) s1 = (Return (K2, false), s1) /\
    run (is_worker_allowed K2)
        (state_after (add_worker "" K2 s1)) = (Return true, s1) /\
    PyList.count K2 (allowed_workers s1) = 1.
Proof.
  split; [reflexivity|]. split; [eexists; reflexivity|]. split; [reflexivity|].
  eapply (add_worker_twice loaded "" "" K2); reflexivity.
Defined.

(** ** The states of the extra properties, on the reference instance *)

Lemma add_then_delete_public_key_witness :
  PyDict.mem K2 (public_keys loaded) = false /\
  exec (Delete_public_key K2) (exec (Add_public_key K2) loaded) = loaded.
Proof.
  split; [reflexivity|]. apply (add_then_delete_public_key K2 loaded). reflexivity.
Defined.

Lemma allowed_workers_without_repetition_witness :
  reachable registered /\
  forall i,
    PyList.count i (allowed_workers registered) =
    if PyList.contains i (allowed_workers registered) then 1 else 0.
Proof.
  split.
  - apply reachable_call; [eapply reachable_init; exact init_loaded | exact I].
  - apply (allowed_workers_without_repetition registered).
    apply reachable_call; [eapply reachable_init; exact init_loaded | exact I].
Defined.

Lemma set_registration_status_outcome_witness :
  reachable loaded /\
  exists s1,
    run (set_registration_status K1 true) loaded =
      (Return (if PyList.contains K1 (allowed_workers loaded)
               then (K1, true) else (INVALID_WORKER, false)), s1) /\
    (PyList.contains K1 (allowed_workers loaded) = true ->
     run (is_worker_registered K1) s1 = (Return true, s1)) /\
    (PyList.contains K1 (allowed_workers loaded) = false -> s1 = loaded) /\
    (forall j, j <> K1 ->
       PyDict.get j (registered_workers s1) = PyDict.get j (registered_workers loaded)) /\
    allowed_workers s1 = allowed_workers loaded /\
    public_keys s1 = public_keys loaded /\
    PyDict.keys (registered_workers s1) = PyDict.keys (registered_workers loaded).
Proof.
  split.
  - eapply reachable_init. exact init_loaded.
  - apply (set_registration_status_outcome loaded K1 true).
    eapply reachable_init. exact init_loaded.
Defined.

Lemma registered_workers_are_allowed_witness :
  reachable_by never_removes registered /\
  I2 registered = true /\
  (run (is_worker_registered K1) registered = (Return true, registered) ->
   run (is_worker_allowed K1) registered = (Return true, registered)).
Proof.
  assert (H : reachable_by never_removes registered)
    by (apply reachable_call; [eapply reachable_init; exact init_loaded | exact I]).
  split; [exact H|].
  destruct (registered_workers_are_allowed registered H) as [H2 Himp].
  split; [exact H2 | exact (Himp K1)].
Defined.

Lemma added_worker_is_unregistered_witness :
  run (add_worker "" K2) loaded = (Return (K2, true), exec (Add_worker "" K2) loaded) /\
  PyList.contains K2 (allowed_workers loaded) = false /\
  allowed_workers (exec (Add_worker "" K2) loaded) = allowed_workers loaded ++ [K2] /\
  run (is_worker_allowed K2) (exec (Add_worker "" K2) loaded) =
    (Return true, exec (Add_worker "" K2) loaded) /\
  run (is_worker_registered K2) (exec (Add_worker "" K2) loaded) =
    (Return false, exec (Add_worker "" K2) loaded).
Proof.
  split; [reflexivity|].
  apply (added_worker_is_unregistered loaded "" K2 K2 (exec (Add_worker "" K2) loaded)).
  reflexivity.
Defined.

Lemma invalid_key_is_not_added_witness :
  do_public_key_auth loaded = true /\
  PyDict.mem "not a key" (public_keys loaded) = false /\
  key_accepted "not a key" = false /\
  run (add_worker "" "not a key") loaded = (Return (INVALID_WORKER, false), loaded) /\
  forall sg,
    run (authenticate_and_add_worker "" "not a key" sg) loaded =
    (Return (INVALID_WORKER, false), loaded).
Proof.
  split; [reflexivity|]. split; [reflexivity|]. split; [reflexivity|].
  apply (invalid_key_is_not_added loaded "" "not a key"); reflexivity.
Defined.

Lemma allowed_worker_identities_witness :
  reachable loaded /\
  PyList.contains K1 (allowed_workers loaded) = true /\
  key_accepted K1 = true /\
  reachable (exec (Add_worker tick "samekey") unsafe) /\
  PyList.contains "1600000000.0_unauthenticated"
    (allowed_workers (exec (Add_worker tick "samekey") unsafe)) = true /\
  exists now, "1600000000.0_unauthenticated" = sha224_hexdigest now +++ "_unauthenticated".
Proof.
  assert (H : reachable loaded) by (eapply reachable_init; exact init_loaded).
  assert (Hu : reachable (exec (Add_worker tick "samekey") unsafe)).
  { apply reachable_call; [|exact I].
    eapply (reachable_init _ "" false None). reflexivity. }
  split; [exact H|]. split; [reflexivity|].
  split; [exact (allowed_worker_identities loaded H K1 eq_refl)|].
  split; [exact Hu|]. split; [reflexivity|].
  exact (allowed_worker_identities _ Hu "1600000000.0_unauthenticated" eq_refl).
Defined.

Lemma get_keys_outcome_witness :
  reachable loaded /\
  exists ks,
    run get_keys loaded = (Return ks, loaded) /\
    NoDup ks /\
    (forall k, In k ks <-> PyDict.mem k (public_keys loaded) = true) /\
    (forall k, In k ks -> key_accepted k = true) /\
    (do_public_key_auth loaded = false -> ks = []).
Proof.
  split.
  - eapply reachable_init. exact init_loaded.
  - apply (get_keys_outcome loaded). eapply reachable_init. exact init_loaded.
Defined.

Lemma get_worker_list_outcome_witness :
  reachable registered /\
  exists rows,
    run get_worker_list registered = (Return rows, registered) /\
    rows = map (fun item => worker_row (fst item) (snd item))
               (registered_workers registered) /\
    NoDup (PyDict.keys (registered_workers registered)) /\
    (forall i, PyList.contains i (allowed_workers registered) = true ->
       exists b, In (worker_row i b) rows /\
                 run (is_worker_registered i) registered = (Return b, registered)) /\
    (WORKER_ID_KEY <> REGISTRATION_STATUS_KEY ->
     forall i b,
       PyDict.get WORKER_ID_KEY (worker_row i b) = Some (PyStr i) /\
       PyDict.get REGISTRATION_STATUS_KEY (worker_row i b) = Some (PyBool b)).
Proof.
  split.
  - apply reachable_call; [eapply reachable_init; exact init_loaded | exact I].
  - apply (get_worker_list_outcome registered).
    apply reachable_call; [eapply reachable_init; exact init_loaded | exact I].
Defined.

Lemma removed_worker_cannot_authenticate_witness :
  do_public_key_auth registered = true /\
  PyList.contains K1 (allowed_workers registered) = true /\
  exists s1,
    run (remove_worker K1) registered = (Return (K1, true), s1) /\
    PyDict.get K1 (public_keys s1) = None /\
    forall now sg,
      run (authenticate_worker K1 sg) s1 = (Return (false, AUTHENTICATED), s1) /\
      run (authenticate_and_add_worker now K1 sg) s1 =
        (Return (INVALID_WORKER, false), s1).
Proof.
  split; [reflexivity|]. split; [reflexivity|].
  apply (removed_worker_cannot_authenticate registered K1); reflexivity.
Defined.

Lemma remove_worker_frame_witness :
  reachable (exec (Add_worker "" K2) loaded) /\
  PyList.contains K1 (allowed_workers (exec (Add_worker "" K2) loaded)) = true /\
  allowed_workers (exec (Remove_worker K1) (exec (Add_worker "" K2) loaded)) =
    filter (fun j => negb (String.eqb K1 j))
           (allowed_workers (exec (Add_worker "" K2) loaded)) /\
  forall j, j <> K1 ->
    PyList.contains j
      (allowed_workers (exec (Remove_worker K1) (exec (Add_worker "" K2) loaded))) =
      PyList.contains j (allowed_workers (exec (Add_worker "" K2) loaded)) /\
    PyDict.get j (public_keys (exec (Remove_worker K1) (exec (Add_worker "" K2) loaded))) =
      PyDict.get j (public_keys (exec (Add_worker "" K2) loaded)) /\
    PyDict.get j
      (registered_workers (exec (Remove_worker K1) (exec (Add_worker "" K2) loaded))) =
      PyDict.get j (registered_workers (exec (Add_worker "" K2) loaded)).
Proof.
  assert (H : reachable (exec (Add_worker "" K2) loaded))
    by (apply reachable_call; [eapply reachable_init; exact init_loaded | exact I]).
  split; [exact H|]. split; [reflexivity|].
  apply (remove_worker_frame (exec (Add_worker "" K2) loaded) K1 H). reflexivity.
Defined.

Lemma remove_then_add_worker_witness :
  reachable registered /\
  do_public_key_auth registered = true /\
  PyList.contains K1 (allowed_workers registered) = true /\
  run (is_worker_registered K1) registered = (Return true, registered) /\
  exists s2,
    run (add_worker "" K1) (exec (Remove_worker K1) registered) = (Return (K1, true), s2) /\
    PyDict.mem K1 (public_keys s2) = true /\
    run (is_worker_allowed K1) s2 = (Return true, s2) /\
    run (is_worker_registered K1) s2 = (Return false, s2).
Proof.
  assert (H : reachable registered)
    by (apply reachable_call; [eapply reachable_init; exact init_loaded | exact I]).
  split; [exact H|]. split; [reflexivity|]. split; [reflexivity|].
  split; [reflexivity|].
  apply (remove_then_add_worker registered "" K1 H); reflexivity.
Defined.

Lemma authenticate_and_add_worker_unsafe_witness :
  reachable (exec (Add_worker tick "samekey") unsafe) /\
  do_public_key_auth (exec (Add_worker tick "samekey") unsafe) = false /\
  exists s1,
    run (authenticate_and_add_worker tick "samekey" "anything")
        (exec (Add_worker tick "samekey") unsafe) =
      (Return (sha224_hexdigest tick +++ "_unauthenticated", true), s1) /\
    run (is_worker_allowed (sha224_hexdigest tick +++ "_unauthenticated")) s1 =
      (Return true, s1) /\
    run (is_worker_registered (sha224_hexdigest tick +++ "_unauthenticated")) s1 =
      (Return true, s1).
Proof.
  assert (Hu : reachable (exec (Add_worker tick "samekey") unsafe)).
  { apply reachable_call; [|exact I].
    eapply (reachable_init _ "" false None). reflexivity. }
  split; [exact Hu|]. split; [reflexivity|].
  apply (authenticate_and_add_worker_unsafe _ tick "samekey" "anything" Hu). reflexivity.
Defined.

Lemma authenticate_and_add_worker_again_witness :
  run (authenticate_and_add_worker "" K1 good_signature) loaded =
    (Return (K1, true), registered) /\
  run (authenticate_and_add_worker "" K1 good_signature) registered =
    (Return (K1, true), registered).
Proof.
  split; [reflexivity|].
  apply (authenticate_and_add_worker_again loaded "" K1 good_signature K1 registered).
  reflexivity.
Defined.
